(** * IOCL petrol bunk dashboard: a shallow embedding of [archive/app.py]

    The program is one Streamlit script.  It finds the newest
    [IOCL_<timestamp>.csv] file of the archive folder, loads it into a data
    frame, converts the price and coordinate columns to numbers, filters the
    rows by state and district and renders statistics, a bar chart, a map and
    a table.

    What is modelled and how:
    - Python [str] values are [string]s (bytes of the UTF-8 text; comparison
      of such strings is comparison by code point).
    - [float] values are the kernel's binary64 floats; a missing number is
      NaN, as in pandas.
    - A data frame is the list of its rows, in row order.
    - An exception is the [Raise] case of [result].
    - Streamlit calls append to an output trace.
    - A data frame that a variable is bound to is an object of a heap and the
      variable holds a reference to it; the value of a sub-expression (a
      mask, the rows selected for the district options) is a plain value. *)

From Stdlib Require Import ZArith Floats Ascii.
From stdpp Require Import base option list strings pretty sorting gmap.

Set Warnings "-abstract-large-number".

Local Open Scope string_scope.
Local Open Scope list_scope.

(** ** Exceptions *)

Inductive exn : Type :=
| ValueError (msg : string)
| NameError (msg : string)
| TypeError (msg : string).

Inductive result (A : Type) : Type :=
| Ok (a : A)
| Raise (e : exn).
Arguments Ok {A} a.
Arguments Raise {A} e.

Definition result_bind {A B} (r : result A) (f : A → result B) : result B :=
  match r with
  | Ok a => f a
  | Raise e => Raise e
  end.

Definition raises {A} (r : result A) : bool :=
  match r with
  | Ok _ => false
  | Raise _ => true
  end.

(** ** Python string operations used by the script *)

Module Str.

(** [s.startswith(p)] *)
Definition startswith (p s : string) : bool := String.prefix p s.

(** The last [n] characters of [s] (all of [s] when it is shorter). *)
Definition last_n (n : nat) (s : string) : string :=
  String.substring (String.length s - n) n s.

(** [s.endswith(p)] *)
Definition endswith (p s : string) : bool :=
  (String.length p <=? String.length s)%nat
  && String.eqb (last_n (String.length p) s) p.

(** [s[start:-back]] for [back > 0]: the stop index is
    [max 0 (len s - back)], and the slice is empty when the start index is
    not before it. *)
Definition slice (start back : nat) (s : string) : string :=
  String.substring start (String.length s - back - start) s.

(** [a < b] on [str]: lexicographic on code points. *)
Definition lt (a b : string) : bool := String.ltb a b.

(** [a <= b], said with [<] only: not [b < a]. *)
Definition le (a b : string) : Prop := lt b a = false.

End Str.

(** ** [datetime.strptime(data_string, '%Y_%m_%d_%H%M%S')]

    CPython turns the format into the regular expression
<<
    (?P<Y>\d\d\d\d)_(?P<m>1[0-2]|0[1-9]|[1-9])_
    (?P<d>3[0-1]|[1-2]\d|0[1-9]|[1-9]| [1-9])_
    (?P<H>2[0-3]|[0-1]\d|\d)(?P<M>[0-5]\d|\d)(?P<S>6[0-1]|[0-5]\d|\d)
>>
    matches it at the start of the string (alternatives in order, with
    backtracking), raises [ValueError] when nothing matches or when text is
    left over, and builds the [datetime], which raises [ValueError] for a
    field out of range.  A matcher is the list of its successes in the order
    a backtracking matcher finds them, so the match the library uses is the
    head of that list.  Digits are the ASCII digits: file names are taken to
    be ASCII text (in a Python [str] pattern the class also holds the other
    decimal digits of Unicode). *)

Module Strptime.

Record datetime : Type := mk_datetime {
  year : nat; month : nat; day : nat;
  hour : nat; minute : nat; second : nat
}.

(** What a matcher yields: the number read and the text left. *)
Definition matcher : Type := string → list (nat * string).

Definition digit (c : ascii) : option nat :=
  let n := nat_of_ascii c in
  if (48 <=? n)%nat && (n <=? 57)%nat then Some (n - 48)%nat else None.

Definition between (lo hi : nat) (n : nat) : bool :=
  (lo <=? n)%nat && (n <=? hi)%nat.

(** One digit whose value is in [lo..hi]. *)
Definition one (lo hi : nat) : matcher := λ s,
  match s with
  | String c rest =>
      match digit c with
      | Some n => if between lo hi n then [(n, rest)] else []
      | None => []
      end
  | EmptyString => []
  end.

(** Two digits, the first in [lo1..hi1] and the second in [lo2..hi2]. *)
Definition two (lo1 hi1 lo2 hi2 : nat) : matcher := λ s,
  '(a, s1) ← one lo1 hi1 s;
  '(b, s2) ← one lo2 hi2 s1;
  [((10 * a + b)%nat, s2)].

(** A literal character. *)
Definition lit (c : ascii) (s : string) : list string :=
  match s with
  | String c' rest => if Ascii.eqb c c' then [rest] else []
  | EmptyString => []
  end.

(** Alternatives, tried from left to right. *)
Definition alt (ms : list matcher) : matcher := λ s,
  m ← ms; m s.

Definition re_Y : matcher := λ s,
  '(a, s1) ← two 0 9 0 9 s;
  '(b, s2) ← two 0 9 0 9 s1;
  [((100 * a + b)%nat, s2)].
Definition re_m : matcher := alt [two 1 1 0 2; two 0 0 1 9; one 1 9].
Definition re_d : matcher :=
  alt [two 3 3 0 1; two 1 2 0 9; two 0 0 1 9; one 1 9;
       λ s, s1 ← lit " " s; one 1 9 s1].
Definition re_H : matcher := alt [two 2 2 0 3; two 0 1 0 9; one 0 9].
Definition re_M : matcher := alt [two 0 5 0 9; one 0 9].
Definition re_S : matcher := alt [two 6 6 0 1; two 0 5 0 9; one 0 9].

(** All the ways the expression matches a prefix, first match first. *)
Definition format_regex (s : string) : list (datetime * string) :=
  '(Y, s) ← re_Y s;
  s ← lit "_" s;
  '(m, s) ← re_m s;
  s ← lit "_" s;
  '(d, s) ← re_d s;
  s ← lit "_" s;
  '(hh, s) ← re_H s;
  '(mm, s) ← re_M s;
  '(ss, s) ← re_S s;
  [(mk_datetime Y m d hh mm ss, s)].

Definition is_leap (y : nat) : bool :=
  (y mod 4 =? 0)%nat && (negb (y mod 100 =? 0)%nat || (y mod 400 =? 0)%nat).

Definition days_in_month (y m : nat) : nat :=
  match m with
  | 2 => if is_leap y then 29 else 28
  | 4 | 6 | 9 | 11 => 30
  | _ => 31
  end%nat.

(** The range checks of the [date] and [datetime] constructors. *)
Definition in_range (t : datetime) : bool :=
  between 1 9999 (year t) && between 1 12 (month t)
  && between 1 (days_in_month (year t) (month t)) (day t)
  && between 0 23 (hour t) && between 0 59 (minute t)
  && between 0 59 (second t).

Definition strptime (data_string : string) : result datetime :=
  match format_regex data_string with
  | [] => Raise (ValueError "time data does not match format")
  | (t, rest) :: _ =>
      if negb (String.eqb rest "") then
        Raise (ValueError "unconverted data remains")
      else if in_range t then Ok t
      else Raise (ValueError "value out of range")
  end.

(** Naive datetimes compare as the tuples of their fields. *)
Definition fields (t : datetime) : list nat :=
  [year t; month t; day t; hour t; minute t; second t].

Fixpoint tuple_gt (a b : list nat) : bool :=
  match a, b with
  | x :: a', y :: b' => if (x =? y)%nat then tuple_gt a' b' else (y <? x)%nat
  | _ :: _, [] => true
  | [], _ => false
  end.

(** [a > b] *)
Definition gt (a b : datetime) : bool := tuple_gt (fields a) (fields b).

End Strptime.

(** ** [max(iterable, key=...)]

    The key is computed once for every item, in order; the first item with
    the greatest key wins (a later item replaces the best one only when its
    key is strictly greater); an exception of the key function propagates. *)

Section Max.
Context {A K : Type} (gt : K → K → bool) (key : A → result K).

Fixpoint max_loop (best : A) (best_key : K) (items : list A) : result A :=
  match items with
  | [] => Ok best
  | x :: items' =>
      result_bind (key x) (λ k,
        if gt k best_key then max_loop x k items'
        else max_loop best best_key items')
  end.

Definition py_max (items : list A) : result A :=
  match items with
  | [] => Raise (ValueError "max() arg is an empty sequence")
  | x :: items' => result_bind (key x) (λ k, max_loop x k items')
  end.

(** [r] is the first item of [items] with the greatest key: the items before
    it have smaller keys and no item after it has a greater one. *)
Definition first_greatest (items : list A) (r : A) : Prop :=
  ∃ before after kr,
    items = before ++ r :: after
    ∧ key r = Ok kr
    ∧ (∀ x k, x ∈ before → key x = Ok k → gt kr k = true)
    ∧ (∀ x k, x ∈ after → key x = Ok k → gt k kr = false).
End Max.

(** ** The file locator: [get_latest_csv] *)

Definition archive_folder : string := "archive".

(** [os.path.join(a, b)] for a relative [b] (POSIX separator). *)
Definition path_join (a b : string) : string := a +:+ "/" +:+ b.

(** The condition of the list comprehension. *)
Definition is_csv_name (f : string) : bool :=
  Str.startswith "IOCL_" f && Str.endswith ".csv" f.

(** The key of the [max] call. *)
Definition timestamp_of (x : string) : result Strptime.datetime :=
  Strptime.strptime (Str.slice 5 4 x).

(** [listing] is what [os.listdir(archive_folder)] returns. *)
Definition get_latest_csv (listing : list string) : result (option string) :=
  let csv_files := List.filter is_csv_name listing in
  match csv_files with
  | [] => Ok None
  | _ =>
      result_bind (py_max Strptime.gt timestamp_of csv_files) (λ latest_file,
        Ok (Some (path_join archive_folder latest_file)))
  end.

(** ** Numbers

    A pandas numeric column holds binary64 floats and marks a missing value
    with NaN. *)

Module Num.

Definition isna (x : float) : bool := PrimFloat.is_nan x.

Definition of_nat (n : nat) : float :=
  PrimFloat.of_uint63 (Uint63.of_Z (Z.of_nat n)).

(** The values that are not missing, in order. *)
Definition dropna (xs : list float) : list float :=
  List.filter (λ x, negb (isna x)) xs.

(** The column with 0 in the place of every missing value: pandas fills the
    missing values before it adds the column up. *)
Definition fillna (xs : list float) : list float :=
  (λ x, if isna x then 0%float else x) <$> xs.

(** numpy's sum of 8 to 128 values: eight running sums, each over every
    eighth value, added up in pairs, and then the values left over when the
    number of values is no multiple of eight, one by one. *)
Fixpoint add_blocks (r : list float) (xs : list float) (blocks : nat)
  : list float * list float :=
  match blocks with
  | O => (r, xs)
  | S blocks' =>
      add_blocks (zip_with PrimFloat.add r (take 8 xs)) (drop 8 xs) blocks'
  end.

Definition add_accumulators (r : list float) : float :=
  match r with
  | [r0; r1; r2; r3; r4; r5; r6; r7] =>
      (((r0 + r1) + (r2 + r3)) + ((r4 + r5) + (r6 + r7)))%float
  | _ => PrimFloat.nan
  end.

Definition block_sum (xs : list float) : float :=
  let '(r, rest) := add_blocks (take 8 xs) (drop 8 xs) (length xs / 8 - 1) in
  fold_left PrimFloat.add rest (add_accumulators r).

(** numpy's [pairwise_sum]: fewer than 8 values are added one by one from
    [-0.0]; up to 128 values are added in blocks; more are split in two
    parts, the first of a length that is a multiple of 8.  [fuel] bounds the
    depth of the splitting; the length of the list is enough. *)
Fixpoint pairwise_sum (fuel : nat) (xs : list float) : float :=
  let n := length xs in
  if (n <? 8)%nat then fold_left PrimFloat.add xs (-0)%float
  else if (n <=? 128)%nat then block_sum xs
  else
    match fuel with
    | O => block_sum xs
    | S fuel' =>
        let n2 := (n / 2 - (n / 2) mod 8)%nat in
        (pairwise_sum fuel' (take n2 xs) + pairwise_sum fuel' (drop n2 xs))%float
    end.

(** [values.sum()] of a float column: numpy's [add.reduce], which starts
    from 0 and adds the pairwise sum of the values.  (A sum that is zero
    can differ from numpy's in its sign, depending on numpy's version.) *)
Definition sum (xs : list float) : float :=
  (0 + pairwise_sum (length xs) xs)%float.

(** [Series.mean()] (with the default [skipna=True]), pandas' [nanmean]:
    the sum of the column with its missing values filled with 0, over the
    number of values that are not missing; NaN when there is none. *)
Definition mean (xs : list float) : float :=
  let count := length (dropna xs) in
  if (count =? 0)%nat then PrimFloat.nan
  else (sum (fillna xs) / of_nat count)%float.



(** The exact value [m * 2^e] times 100, rounded to the nearest integer, ties
    to even: what a correctly rounded [%.2f] prints, without the point. *)
Definition hundredths (m e : Z) : Z :=
  let n := (m * 100)%Z in
  if (0 <=? e)%Z then (n * 2 ^ e)%Z
  else
    let d := (2 ^ (- e))%Z in
    let q := (n / d)%Z in
    let r := (n mod d)%Z in
    if (2 * r <? d)%Z then q
    else if (d <? 2 * r)%Z then (q + 1)%Z
    else if Z.even q then q else (q + 1)%Z.

Definition two_digits (n : Z) : string :=
  (if (n <? 10)%Z then "0" else "") +:+ pretty n.

(** [f"{x:.2f}"] *)
Definition format_2f (x : float) : string :=
  match Prim2SF x with
  | S754_nan => "nan"
  | S754_infinity s => if s then "-inf" else "inf"
  | S754_zero s => (if s then "-" else "") +:+ "0.00"
  | S754_finite s m e =>
      let h := hundredths (Z.pos m) e in
      (if s then "-" else "") +:+ pretty (h / 100)%Z +:+ "."
      +:+ two_digits (h mod 100)%Z
  end.

End Num.

(** ** The data model

    A file read by [pd.read_csv] has one row per station.  The cells of the
    price and coordinate columns are text or numbers (a column that holds a
    word such as [Not Available] is read as text).  The other columns are
    text: every record has a name, an address, a contact, a state and a
    district.  (What lines 90-104 do when a state or district cell is
    missing, or is a number, is the subject of [Cells] below.) *)

Inductive cell : Type :=
| Text (s : string)
| Number (x : float).

Module Raw.
Record Row : Type := mk {
  Petrol_Pump_Name : string;
  Address : string;
  Contact_No : string;
  State : string;
  District : string;
  Latitude : cell;
  Longitude : cell;
  Petrol_Price : cell;
  Diesel_Price : cell;
  XTRAPREMIUM_Price : cell;
  XTRAMILE_Price : cell
}.
End Raw.

(** A station record of the loaded frame: prices and coordinates are
    floats, NaN when missing; [Latitude] and [Longitude] are renamed. *)
Record Row : Type := mk_Row {
  Petrol_Pump_Name : string;
  Address : string;
  Contact_No : string;
  State : string;
  District : string;
  lat : float;
  lon : float;
  Petrol_Price : float;
  Diesel_Price : float;
  XTRAPREMIUM_Price : float;
  XTRAMILE_Price : float
}.

Definition DataFrame : Type := list Row.

(** ** pandas operations *)

(** [series.replace(old, new)] on one cell. *)
Definition replace (old : string) (new : float) (c : cell) : cell :=
  match c with
  | Text s => if String.eqb s old then Number new else c
  | Number _ => c
  end.

(** [pd.to_numeric(series, errors='coerce')] on one cell; [to_double] is the
    library's conversion of text to a float, [None] when the text is not a
    number. *)
Definition to_numeric (to_double : string → option float) (c : cell) : float :=
  match c with
  | Number x => x
  | Text s => default PrimFloat.nan (to_double s)
  end.

(** [series == value] *)
Definition eq_mask (col : Row → string) (value : string) (df : DataFrame)
  : list bool :=
  (λ r, String.eqb (col r) value) <$> df.

(** [df[mask]]: the rows whose mask entry is true. *)
Fixpoint getitem_mask (df : DataFrame) (mask : list bool) : DataFrame :=
  match df, mask with
  | r :: df', b :: mask' =>
      if b then r :: getitem_mask df' mask' else getitem_mask df' mask'
  | _, _ => []
  end.

(** [series.unique().tolist()]: the distinct values in order of first
    appearance. *)
Fixpoint unique (xs : list string) : list string :=
  match xs with
  | [] => []
  | x :: xs' => x :: List.filter (λ y, negb (String.eqb y x)) (unique xs')
  end.

(** [sorted(xs)]: a stable sort that compares with [<] only. *)
Fixpoint insert_sorted (x : string) (ys : list string) : list string :=
  match ys with
  | [] => [x]
  | y :: ys' => if Str.lt y x then y :: insert_sorted x ys' else x :: ys
  end.

Definition sorted (xs : list string) : list string :=
  foldr insert_sorted [] xs.

(** Neither [lat] nor [lon] is missing. *)
Definition has_coordinates (r : Row) : bool :=
  negb (Num.isna (lat r)) && negb (Num.isna (lon r)).

(** [df.dropna(subset=['lat', 'lon'])] *)
Definition dropna_lat_lon (df : DataFrame) : DataFrame :=
  List.filter has_coordinates df.

(** ** The data loader, row by row *)

Definition price_sentinel : string := "Not Available".

(** Lines 28-30: a price column. *)
Definition price_to_numeric (to_double : string → option float) (c : cell)
  : float :=
  to_numeric to_double (replace price_sentinel PrimFloat.nan c).

(** Lines 28-35 on one row. *)
Definition convert_row (to_double : string → option float) (r : Raw.Row) : Row :=
  {| Petrol_Pump_Name := Raw.Petrol_Pump_Name r;
     Address := Raw.Address r;
     Contact_No := Raw.Contact_No r;
     State := Raw.State r;
     District := Raw.District r;
     lat := to_numeric to_double (Raw.Latitude r);
     lon := to_numeric to_double (Raw.Longitude r);
     Petrol_Price := price_to_numeric to_double (Raw.Petrol_Price r);
     Diesel_Price := price_to_numeric to_double (Raw.Diesel_Price r);
     XTRAPREMIUM_Price := price_to_numeric to_double (Raw.XTRAPREMIUM_Price r);
     XTRAMILE_Price := price_to_numeric to_double (Raw.XTRAMILE_Price r) |}.

(** ** The filter layer *)

Definition all_sentinel : string := "All".

(** Line 90. *)
Definition state_options (df : DataFrame) : list string :=
  [all_sentinel] ++ sorted (unique (State <$> df)).

(** Lines 93-96. *)
Definition district_options (df : DataFrame) (selected_state : string)
  : list string :=
  if negb (String.eqb selected_state all_sentinel) then
    [all_sentinel]
    ++ sorted (unique (District <$> getitem_mask df (eq_mask State selected_state df)))
  else
    [all_sentinel] ++ sorted (unique (District <$> df)).

(** Lines 101-102 and 103-104: one [if] each, on the column [col]. *)
Definition apply_filter (col : Row → string) (selected : string) (df : DataFrame)
  : DataFrame :=
  if negb (String.eqb selected all_sentinel) then
    getitem_mask df (eq_mask col selected df)
  else df.

Definition filter_state : string → DataFrame → DataFrame := apply_filter State.
Definition filter_district : string → DataFrame → DataFrame := apply_filter District.

(** ** The region columns, cell by cell

    [Row] above is a record of a frame whose [State] and [District] columns
    are text.  [pd.read_csv] also yields such a column with missing cells
    (NaN, for empty cells) or as a column of numbers (when every cell is a
    number).  On cells of any kind Python's [sorted] can raise [TypeError],
    and [==] and [unique] treat NaN in their own ways.  Lines 90-104 are
    given here on such columns; on text columns they are the functions of
    the filter layer above ([Cells_state_options_of_rows] and the lemmas
    after it). *)

Module Cells.

(** The two region cells of a record. *)
Record Region : Type := mk {
  State : cell;
  District : cell
}.

Definition is_text (c : cell) : bool :=
  match c with
  | Text _ => true
  | Number _ => false
  end.

(** A missing cell: NaN. *)
Definition isna (c : cell) : bool :=
  match c with
  | Text _ => false
  | Number x => PrimFloat.is_nan x
  end.

(** The text of a text cell. *)
Definition text_of (c : cell) : string :=
  match c with
  | Text s => s
  | Number _ => ""
  end.

(** [a == b]: NaN equals nothing, a text equals no number. *)
Definition eq (a b : cell) : bool :=
  match a, b with
  | Text s, Text t => String.eqb s t
  | Number x, Number y => PrimFloat.eqb x y
  | _, _ => false
  end.

(** The values [unique] takes for one: equal values, and NaN with NaN. *)
Definition same (a b : cell) : bool :=
  match a, b with
  | Text s, Text t => String.eqb s t
  | Number x, Number y =>
      PrimFloat.eqb x y || (PrimFloat.is_nan x && PrimFloat.is_nan y)
  | _, _ => false
  end.

(** [a < b]: defined between two texts and between two numbers. *)
Definition lt (a b : cell) : result bool :=
  match a, b with
  | Text s, Text t => Ok (Str.lt s t)
  | Number x, Number y => Ok (PrimFloat.ltb x y)
  | Number _, Text _ =>
      Raise (TypeError "'<' not supported between instances of 'float' and 'str'")
  | Text _, Number _ =>
      Raise (TypeError "'<' not supported between instances of 'str' and 'float'")
  end.

(** [series.unique().tolist()] *)
Fixpoint unique (xs : list cell) : list cell :=
  match xs with
  | [] => []
  | x :: xs' => x :: List.filter (λ y, negb (same y x)) (unique xs')
  end.

(** [sorted(xs)]: a stable sort that compares with [<]; a comparison that
    raises ends it.  (For numbers with a NaN among them the order Python
    gives depends on the steps of its algorithm and can differ from the one
    given here; no statement below is about such a list.) *)
Fixpoint insert_sorted (x : cell) (ys : list cell) : result (list cell) :=
  match ys with
  | [] => Ok [x]
  | y :: ys' =>
      result_bind (lt y x) (λ smaller,
        if smaller then result_bind (insert_sorted x ys') (λ r, Ok (y :: r))
        else Ok (x :: ys))
  end.

Definition sorted (xs : list cell) : result (list cell) :=
  foldr (λ x acc, result_bind acc (insert_sorted x)) (Ok []) xs.

(** [series == value] *)
Definition eq_mask (col : Region → cell) (value : cell) (df : list Region)
  : list bool :=
  (λ r, eq (col r) value) <$> df.

(** [df[mask]] *)
Fixpoint getitem_mask (df : list Region) (mask : list bool) : list Region :=
  match df, mask with
  | r :: df', b :: mask' =>
      if b then r :: getitem_mask df' mask' else getitem_mask df' mask'
  | _, _ => []
  end.

Definition all_sentinel : cell := Text "All".

(** Line 90. *)
Definition state_options (df : list Region) : result (list cell) :=
  result_bind (sorted (unique (State <$> df))) (λ states,
    Ok ([all_sentinel] ++ states)).

(** Lines 93-96. *)
Definition district_options (df : list Region) (selected_state : cell)
  : result (list cell) :=
  if negb (eq selected_state all_sentinel) then
    result_bind
      (sorted (unique (District <$> getitem_mask df (eq_mask State selected_state df))))
      (λ districts, Ok ([all_sentinel] ++ districts))
  else
    result_bind (sorted (unique (District <$> df))) (λ districts,
      Ok ([all_sentinel] ++ districts)).

(** Lines 101-102 and 103-104: one [if] each. *)
Definition apply_filter (col : Region → cell) (selection : cell) (df : list Region)
  : list Region :=
  if negb (eq selection all_sentinel) then
    getitem_mask df (eq_mask col selection df)
  else df.

(** The option a select box returns, as [selected] below. *)
Definition selected (options : list cell) (index : nat) : cell :=
  default (hd (Text "") options) (options !! index).

(** Lines 90-104: the rows shown when the user picks the options at the
    given indices of the two select boxes. *)
Definition shown_rows (state_index district_index : nat) (df : list Region)
  : result (list Region) :=
  result_bind (state_options df) (λ states,
    let selected_state := selected states state_index in
    result_bind (district_options df selected_state) (λ districts,
      let selected_district := selected districts district_index in
      Ok (apply_filter District selected_district
            (apply_filter State selected_state df)))).

(** Every region cell of the frame is a text. *)
Definition text_columns (df : list Region) : bool :=
  forallb (λ r, is_text (State r) && is_text (District r)) df.

(** Every state cell is a text. *)
Definition text_states (df : list Region) : bool :=
  forallb (λ r, is_text (State r)) df.

(** Every state cell is a text and every district cell is missing. *)
Definition missing_districts (df : list Region) : bool :=
  forallb (λ r, is_text (State r) && isna (District r)) df.

(** The column holds a text and a cell that is no text. *)
Definition mixed (column : list cell) : bool :=
  existsb is_text column && existsb (λ c, negb (is_text c)) column.

End Cells.

(** The region cells of a record of a frame with text columns. *)
Definition region_of_row (r : Row) : Cells.Region :=
  {| Cells.State := Text (State r); Cells.District := Text (District r) |}.

(** ** What the script shows *)

Record Figure : Type := mk_Figure {
  fig_data : list (string * float);
  fig_x : string;
  fig_y : string;
  fig_title : string
}.

Record Layer : Type := mk_Layer {
  layer_type : string;
  layer_data : DataFrame;
  get_position : list string;
  get_color : list nat;
  get_radius : nat;
  pickable : bool
}.

Record ViewState : Type := mk_ViewState {
  latitude : float;
  longitude : float;
  zoom : nat;
  pitch : nat
}.

Record Deck : Type := mk_Deck {
  layers : list Layer;
  initial_view_state : ViewState;
  tooltip : string
}.

(** A row of the table of line 128, columns in the order listed there. *)
Record TableRow : Type := mk_TableRow {
  t_Petrol_Pump_Name : string;
  t_Address : string;
  t_Contact_No : string;
  t_Petrol_Price : float;
  t_Diesel_Price : float;
  t_District : string;
  t_State : string
}.

Inductive metric_value : Type :=
| IntValue (n : nat)
| StrValue (s : string).

(** One Streamlit call that draws something. *)
Inductive event : Type :=
| EvTitle (body : string)
| EvError (body : string)
| EvWarning (body : string)
| EvSidebarHeader (body : string)
| EvSidebarSelectbox (label : string) (options : list string)
| EvHeader (body : string)
| EvMetric (column : nat) (label : string) (value : metric_value)
| EvPlotlyChart (fig : Figure)
| EvPydeckChart (deck : Deck)
| EvDataframe (table : list TableRow).

(** A circle drawn by a scatterplot layer. *)
Record Point : Type := mk_Point {
  p_lon : float;
  p_lat : float;
  p_radius : nat;
  p_color : list nat
}.

(** The circles of a deck: a scatterplot layer draws one per row of its data,
    at the row's [get_position] columns ([lon], [lat]). *)
Definition plotted_points (d : Deck) : list Point :=
  l ← layers d;
  r ← layer_data l;
  [mk_Point (lon r) (lat r) (get_radius l) (get_color l)].

(** ** The script's monad

    A run reads the environment (the archive folder, the files, the user's
    choices in the select boxes), allocates data frames in a heap, draws, and
    ends with a value or an exception. *)

Definition loc : Type := nat.

Record Env : Type := mk_Env {
  (** [os.listdir('archive')] *)
  listdir : list string;
  (** the rows of the file at a path, as [pd.read_csv(path, delimiter='|')]
      reads them *)
  csv_rows : string → list Raw.Row;
  (** the index the user picked in the select box with this label and these
      options *)
  chosen : string → list string → nat
}.

Definition M (A : Type) : Type :=
  Env → gmap loc DataFrame → result A * gmap loc DataFrame * list event.

Definition ret {A} (a : A) : M A := λ _ h, (Ok a, h, []).

Definition bind {A B} (m : M A) (k : A → M B) : M B := λ env h,
  match m env h with
  | (Ok a, h1, out1) =>
      match k a env h1 with
      | (r, h2, out2) => (r, h2, out1 ++ out2)
      end
  | (Raise e, h1, out1) => (Raise e, h1, out1)
  end.

#[export] Instance M_ret : MRet M := @ret.
#[export] Instance M_bind : MBind M := λ A B k m, bind m k.

(** The parts of a run's outcome. *)
Definition value_of {A} (o : result A * gmap loc DataFrame * list event)
  : result A := o.1.1.
Definition heap_of {A} (o : result A * gmap loc DataFrame * list event)
  : gmap loc DataFrame := o.1.2.
Definition drawn {A} (o : result A * gmap loc DataFrame * list event)
  : list event := o.2.

Definition lift {A} (r : result A) : M A := λ _ h, (r, h, []).
Definition ask : M Env := λ env h, (Ok env, h, []).
Definition emit (e : event) : M unit := λ _ h, (Ok tt, h, [e]).

(** A new frame object. *)
Definition alloc (df : DataFrame) : M loc := λ _ h,
  let l := fresh (dom h) in (Ok l, <[l := df]> h, []).

(** The frame a variable refers to. *)
Definition deref (l : loc) : M DataFrame := λ _ h,
  match h !! l with
  | Some df => (Ok df, h, [])
  | None => (Raise (NameError "the variable refers to no frame"), h, [])
  end.

(** *** Streamlit *)

Definition st_title (s : string) : M unit := emit (EvTitle s).
Definition st_error (s : string) : M unit := emit (EvError s).
Definition st_warning (s : string) : M unit := emit (EvWarning s).
Definition st_header (s : string) : M unit := emit (EvHeader s).
Definition st_sidebar_header (s : string) : M unit := emit (EvSidebarHeader s).
Definition st_metric (column : nat) (label : string) (v : metric_value) : M unit :=
  emit (EvMetric column label v).
Definition st_plotly_chart (fig : Figure) : M unit := emit (EvPlotlyChart fig).
Definition st_pydeck_chart (d : Deck) : M unit := emit (EvPydeckChart d).
Definition st_dataframe (t : list TableRow) : M unit := emit (EvDataframe t).

(** The option a select box returns: the one at the chosen index, the first
    one when there is no such index. *)
Definition selected (options : list string) (index : nat) : string :=
  default (hd "" options) (options !! index).

Definition st_sidebar_selectbox (label : string) (options : list string)
  : M string :=
  env ← ask;
  emit (EvSidebarSelectbox label options);;
  mret (selected options (chosen env label options)).

(** ** The script *)

Definition rupee : string := "₹".
Definition newline : string := String (ascii_of_nat 10) "".

Definition price_columns : list (string * (Row → float)) :=
  [("Petrol Price", Petrol_Price); ("Diesel Price", Diesel_Price);
   ("XTRAPREMIUM Price", XTRAPREMIUM_Price); ("XTRAMILE Price", XTRAMILE_Price)].

(** Lines 115-117: the mean of each price column, as a bar chart. *)
Definition price_chart (df : DataFrame) : Figure :=
  let price_df := (λ c, (c.1, Num.mean (c.2 <$> df))) <$> price_columns in
  {| fig_data := price_df; fig_x := "Fuel Type"; fig_y := "Average Price";
     fig_title := "Average Fuel Prices" |}.

(** Line 128: the columns of the table. *)
Definition table_row (r : Row) : TableRow :=
  {| t_Petrol_Pump_Name := Petrol_Pump_Name r;
     t_Address := Address r;
     t_Contact_No := Contact_No r;
     t_Petrol_Price := Petrol_Price r;
     t_Diesel_Price := Diesel_Price r;
     t_District := District r;
     t_State := State r |}.

Definition table_view (df : DataFrame) : list TableRow := table_row <$> df.

(** Lines 49-76: the deck for the rows that have coordinates. *)
Definition build_deck (map_df : DataFrame) : Deck :=
  let center_lat := Num.mean (lat <$> map_df) in
  let center_lon := Num.mean (lon <$> map_df) in
  let layer :=
    {| layer_type := "ScatterplotLayer";
       layer_data := map_df;
       get_position := ["lon"; "lat"];
       get_color := [200; 30; 0; 160]%nat;
       get_radius := 100;
       pickable := true |} in
  let view_state :=
    {| latitude := center_lat; longitude := center_lon;
       zoom := 10; pitch := 0 |} in
  {| layers := [layer];
     initial_view_state := view_state;
     tooltip := "{Petrol Pump Name}" +:+ newline
                +:+ "Petrol: " +:+ rupee +:+ "{Petrol Price}" +:+ newline
                +:+ "Diesel: " +:+ rupee +:+ "{Diesel Price}" |}.

(** Lines 40-78. [df] and [map_df] are variables that refer to frames. *)
Definition create_map (df : loc) : M (option Deck) :=
  rows ← deref df;
  map_df ← alloc (dropna_lat_lon rows);
  map_rows ← deref map_df;
  if bool_decide (map_rows = []) then
    st_warning "No valid location data available for the selected filters.";;
    mret None
  else
    mret (Some (build_deck map_rows)).

Section Script.

(** The library's conversion of text to a float ([None]: not a number). *)
Variable to_double : string → option float.

(** Lines 20-37.  The frame is built from the rows read and then stored: the
    conversions of lines 28-35 work on the frame just read, which nothing
    else refers to. *)
Definition load_data : M (option loc) :=
  env ← ask;
  csv_file ← lift (get_latest_csv (listdir env));
  match csv_file with
  | None =>
      st_error "No CSV file found in the archive folder.";;
      mret None
  | Some path =>
      df ← alloc (convert_row to_double <$> csv_rows env path);
      mret (Some df)
  end.

(** Lines 101-104 on a variable: it is bound to a new frame when the
    selection is not [All] and keeps its frame otherwise. *)
Definition rebind_filtered (col : Row → string) (selection : string) (df : loc)
  : M loc :=
  if negb (String.eqb selection all_sentinel) then
    rows ← deref df;
    alloc (getitem_mask rows (eq_mask col selection rows))
  else mret df.

(** Lines 88-128: what [main] does with a loaded frame. *)
Definition dashboard (df : loc) : M unit :=
  st_sidebar_header "Filters";;
  rows ← deref df;
  selected_state ← st_sidebar_selectbox "Select State" (state_options rows);
  selected_district ←
    st_sidebar_selectbox "Select District" (district_options rows selected_state);
  df ← rebind_filtered State selected_state df;
  df ← rebind_filtered District selected_district df;
  rows ← deref df;
  st_header "Basic Statistics";;
  st_metric 1 "Total Petrol Bunks" (IntValue (length rows));;
  st_metric 2 "Average Petrol Price"
    (StrValue (rupee +:+ Num.format_2f (Num.mean (Petrol_Price <$> rows))));;
  st_metric 3 "Average Diesel Price"
    (StrValue (rupee +:+ Num.format_2f (Num.mean (Diesel_Price <$> rows))));;
  st_header "Fuel Price Comparison";;
  st_plotly_chart (price_chart rows);;
  st_header "Petrol Bunk Locations";;
  map_chart ← create_map df;
  match map_chart with
  | Some deck => st_pydeck_chart deck
  | None => mret tt
  end;;
  st_header "Petrol Bunk Details";;
  st_dataframe (table_view rows).

(** Lines 81-128. *)
Definition main : M unit :=
  st_title "IOCL Petrol Bunk Dashboard";;
  df ← load_data;
  match df with
  | None => mret tt
  | Some df => dashboard df
  end.

End Script.

(** ** What a run draws

    The selections of a run, the rows it shows and the events of each
    section of [dashboard], as functions of the loaded rows. *)

(** What [create_map] returns and what it warns of. *)
Definition map_result (shown : DataFrame) : option Deck :=
  match dropna_lat_lon shown with
  | [] => None
  | _ :: _ => Some (build_deck (dropna_lat_lon shown))
  end.

Definition map_warning (shown : DataFrame) : list event :=
  match dropna_lat_lon shown with
  | [] => [EvWarning "No valid location data available for the selected filters."]
  | _ :: _ => []
  end.

Definition selected_state (env : Env) (rows : DataFrame) : string :=
  selected (state_options rows) (chosen env "Select State" (state_options rows)).

Definition selected_district (env : Env) (rows : DataFrame) : string :=
  selected (district_options rows (selected_state env rows))
    (chosen env "Select District" (district_options rows (selected_state env rows))).

Definition shown_rows (env : Env) (rows : DataFrame) : DataFrame :=
  filter_district (selected_district env rows)
    (filter_state (selected_state env rows) rows).

(** What [dashboard] draws, section by section. *)
Definition sidebar_events (env : Env) (rows : DataFrame) : list event :=
  [EvSidebarHeader "Filters";
   EvSidebarSelectbox "Select State" (state_options rows);
   EvSidebarSelectbox "Select District"
     (district_options rows (selected_state env rows))].

Definition statistics_events (shown : DataFrame) : list event :=
  [EvHeader "Basic Statistics";
   EvMetric 1 "Total Petrol Bunks" (IntValue (length shown));
   EvMetric 2 "Average Petrol Price"
     (StrValue (rupee +:+ Num.format_2f (Num.mean (Petrol_Price <$> shown))));
   EvMetric 3 "Average Diesel Price"
     (StrValue (rupee +:+ Num.format_2f (Num.mean (Diesel_Price <$> shown))))].

Definition chart_events (shown : DataFrame) : list event :=
  [EvHeader "Fuel Price Comparison"; EvPlotlyChart (price_chart shown)].

Definition map_events (shown : DataFrame) : list event :=
  [EvHeader "Petrol Bunk Locations"]
  ++ map_warning shown
  ++ match map_result shown with
     | Some deck => [EvPydeckChart deck]
     | None => []
     end.

Definition table_events (shown : DataFrame) : list event :=
  [EvHeader "Petrol Bunk Details"; EvDataframe (table_view shown)].

Definition dashboard_events (env : Env) (rows : DataFrame) : list event :=
  sidebar_events env rows
  ++ statistics_events (shown_rows env rows)
  ++ chart_events (shown_rows env rows)
  ++ map_events (shown_rows env rows)
  ++ table_events (shown_rows env rows).


(** ** An instance of the text conversion, to run the script on examples

    Decimal literals with an optional sign, at most 15 digits and no
    exponent: the integer the digits spell and the power of ten are exact
    floats, so their quotient is the correctly rounded value.  Every other
    text is left unconverted by this instance. *)

Fixpoint read_digits (s : string) (acc : Z) (n : nat) : Z * nat * string :=
  match s with
  | String c rest =>
      match Strptime.digit c with
      | Some d => read_digits rest (10 * acc + Z.of_nat d)%Z (S n)
      | None => (acc, n, s)
      end
  | EmptyString => (acc, n, s)
  end.

Definition float_of_Z (z : Z) : float := PrimFloat.of_uint63 (Uint63.of_Z z).

Definition short_decimal (s : string) : option float :=
  let '(negative, s) :=
    match s with
    | String "-" rest => (true, rest)
    | String "+" rest => (false, rest)
    | _ => (false, s)
    end in
  let '(int_part, n1, s) := read_digits s 0 0 in
  let '(mantissa, n2, s) :=
    match s with
    | String "." rest => read_digits rest int_part 0
    | _ => (int_part, 0%nat, s)
    end in
  if String.eqb s "" && (0 <? n1 + n2)%nat && (n1 + n2 <=? 15)%nat then
    let x := (float_of_Z mantissa / float_of_Z (10 ^ Z.of_nat n2))%float in
    Some (if negative then (- x)%float else x)
  else None.


(** ** Example data *)

Module Demo.

Definition raw_station (petrol diesel latitude longitude : cell) : Raw.Row :=
  {| Raw.Petrol_Pump_Name := "Sri Fuels";
     Raw.Address := "12 Mount Road";
     Raw.Contact_No := "044-5550100";
     Raw.State := "Tamil Nadu";
     Raw.District := "Chennai";
     Raw.Latitude := latitude;
     Raw.Longitude := longitude;
     Raw.Petrol_Price := petrol;
     Raw.Diesel_Price := diesel;
     Raw.XTRAPREMIUM_Price := Text "Not Available";
     Raw.XTRAMILE_Price := Number 99 |}.

(** The user leaves every select box on its first option, [All]. *)
Definition first_option : string → list string → nat := λ _ _, 0%nat.

(** A folder with no archive file. *)
Definition no_file : Env :=
  {| listdir := ["notes.txt"; "IOCL_old.txt"];
     csv_rows := λ _, [];
     chosen := first_option |}.

(** A folder with two archive files; the later one holds the two records of
    the scenario of the specification. *)
Definition two_records : Env :=
  {| listdir := ["IOCL_2024_01_01_120000.csv"; "IOCL_2024_06_15_090000.csv"];
     csv_rows := λ path,
       if String.eqb path "archive/IOCL_2024_06_15_090000.csv" then
         [raw_station (Text "90") (Number 80) (Number 13.25) (Number 80.5);
          raw_station (Text "Not Available") (Number 85)
            (Text "Not Available") (Number 80.125)]
       else [];
     chosen := first_option |}.

Definition station (district : string) (latitude longitude : float) : Row :=
  {| Petrol_Pump_Name := "Sri Fuels";
     Address := "12 Mount Road";
     Contact_No := "044-5550100";
     State := "Tamil Nadu";
     District := district;
     lat := latitude;
     lon := longitude;
     Petrol_Price := 100.5;
     Diesel_Price := 92.25;
     XTRAPREMIUM_Price := PrimFloat.nan;
     XTRAMILE_Price := PrimFloat.nan |}.

Definition located : Row := station "Chennai" 13.25 80.5.
Definition unlocated : Row := station "Salem" PrimFloat.nan 78.125.

(** A heap whose only frame, at reference 0, holds the given rows. *)
Definition one_frame (rows : DataFrame) : gmap loc DataFrame :=
  {[ 0%nat := rows ]}.

(** Region cells: two records of one state, the district cell of the second
    one empty in the file. *)
Definition missing_district : list Cells.Region :=
  [Cells.mk (Text "Tamil Nadu") (Text "Chennai");
   Cells.mk (Text "Tamil Nadu") (Number PrimFloat.nan)].

(** Region cells of four records of two states. *)
Definition two_districts : list Cells.Region :=
  [Cells.mk (Text "Tamil Nadu") (Text "Salem");
   Cells.mk (Text "Kerala") (Text "Kochi");
   Cells.mk (Text "Tamil Nadu") (Text "Chennai");
   Cells.mk (Text "Tamil Nadu") (Text "Salem")].

(** Region cells of a file whose district column is empty. *)
Definition no_districts : list Cells.Region :=
  [Cells.mk (Text "Tamil Nadu") (Number PrimFloat.nan);
   Cells.mk (Text "Kerala") (Number PrimFloat.nan)].

End Demo.

(** * Properties *)

(** ** Worked examples *)

Example get_latest_csv_two_files :
  get_latest_csv ["IOCL_2024_01_01_120000.csv"; "notes.txt";
                  "IOCL_2024_06_15_090000.csv"]
  = Ok (Some "archive/IOCL_2024_06_15_090000.csv").
Proof. reflexivity. Qed.

Example strptime_backtracks :
  Strptime.strptime "2024_1_1_123"
  = Ok (Strptime.mk_datetime 2024 1 1 1 2 3).
Proof. reflexivity. Qed.

Example format_2f_examples :
  Num.format_2f 82.5 = "82.50" ∧ Num.format_2f 90 = "90.00"
  ∧ Num.format_2f 0.125 = "0.12" ∧ Num.format_2f (-0.375) = "-0.38"
  ∧ Num.format_2f 1e22 = "10000000000000000000000.00"
  ∧ Num.format_2f (Num.mean []) = "nan"
  ∧ Num.mean [90; PrimFloat.nan; 92]%float = 91%float.
Proof. vm_compute. repeat split. Qed.

Example short_decimal_examples :
  short_decimal "90" = Some 90%float
  ∧ short_decimal "82.5" = Some 82.5%float
  ∧ short_decimal "-0.25" = Some (-0.25)%float
  ∧ short_decimal "Not Available" = None
  ∧ short_decimal "" = None.
Proof. vm_compute. repeat split. Qed.

(** ** Results *)

Lemma result_bind_Ok {A B} (r : result A) (f : A → result B) (b : B) :
  result_bind r f = Ok b ↔ ∃ a, r = Ok a ∧ f a = Ok b.
Proof.
  destruct r as [a|e]; simpl; split.
  - intros H. by exists a.
  - by intros (a' & [= <-] & H).
  - discriminate.
  - by intros (a' & [=] & _).
Qed.

Lemma raises_false {A} (r : result A) : raises r = false ↔ ∃ a, r = Ok a.
Proof.
  destruct r as [a|e]; simpl; split; eauto.
  - discriminate.
  - by intros [a' [=]].
Qed.

(** ** The order of timestamps *)

Module TupleOrder.

Lemma gt_irrefl (a : list nat) : Strptime.tuple_gt a a = false.
Proof.
  induction a as [|x a IH]; simpl; [done|]. by rewrite Nat.eqb_refl.
Qed.

Lemma gt_asym (a b : list nat) :
  Strptime.tuple_gt a b = true → Strptime.tuple_gt b a = false.
Proof.
  revert b. induction a as [|x a IH]; intros [|y b]; simpl; try done.
  destruct (Nat.eqb_spec x y) as [->|Hne].
  - rewrite Nat.eqb_refl. apply IH.
  - destruct (Nat.eqb_spec y x) as [->|_]; [done|].
    intros Hlt%Nat.ltb_lt. apply Nat.ltb_ge. lia.
Qed.

(** [u <= b] and [b < k] give [u < k]. *)
Lemma le_lt_trans (u b k : list nat) :
  Strptime.tuple_gt u b = false → Strptime.tuple_gt k b = true →
  Strptime.tuple_gt k u = true.
Proof.
  revert b k. induction u as [|x u IH]; intros [|y b] [|z k]; simpl; try done.
  destruct (Nat.eqb_spec x y) as [->|Hxy].
  - destruct (Nat.eqb_spec z y) as [->|Hzy]; [apply IH | done].
  - intros Hxy'%Nat.ltb_ge.
    destruct (Nat.eqb_spec z y) as [->|Hzy].
    + intros _. destruct (Nat.eqb_spec y x) as [->|_]; [done|].
      apply Nat.ltb_lt. lia.
    + intros Hyz%Nat.ltb_lt. destruct (Nat.eqb_spec z x) as [->|_]; [lia|].
      apply Nat.ltb_lt. lia.
Qed.

End TupleOrder.

Lemma datetime_gt_asym (a b : Strptime.datetime) :
  Strptime.gt a b = true → Strptime.gt b a = false.
Proof. apply TupleOrder.gt_asym. Qed.

Lemma datetime_le_lt_trans (u b k : Strptime.datetime) :
  Strptime.gt u b = false → Strptime.gt k b = true → Strptime.gt k u = true.
Proof. apply TupleOrder.le_lt_trans. Qed.

(** ** [max] with a key *)

Section MaxFacts.
Context {A K : Type} (gt : K → K → bool) (key : A → result K).
Hypothesis gt_asym : ∀ a b, gt a b = true → gt b a = false.
Hypothesis le_lt_trans : ∀ u b k, gt u b = false → gt k b = true → gt k u = true.

Lemma max_loop_spec (items : list A) (best : A) (bk : K) (r : A) :
  max_loop gt key best bk items = Ok r →
  (r = best ∧ ∀ x k, x ∈ items → key x = Ok k → gt k bk = false)
  ∨ (∃ before after kr,
       items = before ++ r :: after
       ∧ key r = Ok kr
       ∧ gt kr bk = true
       ∧ (∀ x k, x ∈ before → key x = Ok k → gt kr k = true)
       ∧ (∀ x k, x ∈ after → key x = Ok k → gt k kr = false)).
Proof.
  revert best bk. induction items as [|x items IH]; intros best bk; simpl.
  - intros [= <-]. left. split; [done|]. intros x k Hx. by apply elem_of_nil in Hx.
  - intros (k & Hk & Hloop)%result_bind_Ok.
    destruct (gt k bk) eqn:Hgt.
    + right. destruct (IH _ _ Hloop) as [[-> Hall] | (before & after & kr & -> & Hkr & Hgt' & Hb & Ha)].
      * exists [], items, k. repeat split; try done.
        intros y ky Hy. by apply elem_of_nil in Hy.
      * exists (x :: before), after, kr. repeat split; try done.
        -- eapply le_lt_trans; [|exact Hgt']. by apply gt_asym.
        -- intros y ky [->|Hy]%elem_of_cons Hky; [|by eapply Hb].
           rewrite Hk in Hky. injection Hky as <-. done.
    + destruct (IH _ _ Hloop) as [[-> Hall] | (before & after & kr & -> & Hkr & Hgt' & Hb & Ha)].
      * left. split; [done|].
        intros y ky [->|Hy]%elem_of_cons Hky; [|by eapply Hall].
        rewrite Hk in Hky. by injection Hky as <-.
      * right. exists (x :: before), after, kr. repeat split; try done.
        intros y ky [->|Hy]%elem_of_cons Hky; [|by eapply Hb].
        rewrite Hk in Hky. injection Hky as <-.
        by eapply le_lt_trans.
Qed.

Lemma py_max_spec (items : list A) (r : A) :
  py_max gt key items = Ok r → first_greatest gt key items r.
Proof.
  destruct items as [|x items]; simpl; [done|].
  intros (k & Hk & Hloop)%result_bind_Ok.
  destruct (max_loop_spec _ _ _ _ Hloop)
    as [[-> Hall] | (before & after & kr & -> & Hkr & Hgt' & Hb & Ha)].
  - exists [], items, k. repeat split; try done.
    intros y ky Hy. by apply elem_of_nil in Hy.
  - exists (x :: before), after, kr. repeat split; try done.
    intros y ky [->|Hy]%elem_of_cons Hky; [|by eapply Hb].
    rewrite Hk in Hky. by injection Hky as <-.
Qed.

(** The loop ends normally exactly when every key does. *)
Lemma max_loop_raises (items : list A) (best : A) (bk : K) :
  raises (max_loop gt key best bk items) = false
  ↔ ∀ x, x ∈ items → raises (key x) = false.
Proof.
  revert best bk. induction items as [|x items IH]; intros best bk; simpl.
  - split; [|done]. intros _ x Hx. by apply elem_of_nil in Hx.
  - destruct (key x) as [k|e] eqn:Hk; simpl.
    + assert (raises (if gt k bk then max_loop gt key x k items
                      else max_loop gt key best bk items) = false
              ↔ ∀ y, y ∈ items → raises (key y) = false) as ->.
      { destruct (gt k bk); apply IH. }
      split.
      * intros H y [->|Hy]%elem_of_cons; [by rewrite Hk | by apply H].
      * intros H y Hy. apply H. by right.
    + split; [done|]. intros H. specialize (H x (list_elem_of_here _ _)).
      by rewrite Hk in H.
Qed.

Lemma py_max_raises (items : list A) :
  items ≠ [] →
  raises (py_max gt key items) = false
  ↔ ∀ x, x ∈ items → raises (key x) = false.
Proof.
  destruct items as [|x items]; [done|]. intros _. simpl.
  destruct (key x) as [k|e] eqn:Hk; simpl.
  - rewrite max_loop_raises. split.
    + intros H y [->|Hy]%elem_of_cons; [by rewrite Hk | by apply H].
    + intros H y Hy. apply H. by right.
  - split; [done|]. intros H. specialize (H x (list_elem_of_here _ _)).
    by rewrite Hk in H.
Qed.

End MaxFacts.

(** ** The file locator *)

Lemma elem_of_csv_files (listing : list string) (f : string) :
  f ∈ List.filter is_csv_name listing ↔ f ∈ listing ∧ is_csv_name f = true.
Proof. by rewrite !list_elem_of_In, List.filter_In. Qed.

Lemma csv_files_nil (listing : list string) :
  List.filter is_csv_name listing = []
  ↔ ∀ f, f ∈ listing → is_csv_name f = false.
Proof.
  split.
  - intros Hnil f Hf. destruct (is_csv_name f) eqn:Hcsv; [|done].
    assert (f ∈ List.filter is_csv_name listing) as Hin
      by by apply elem_of_csv_files.
    rewrite Hnil in Hin. by apply elem_of_nil in Hin.
  - intros Hall. destruct (List.filter is_csv_name listing) as [|f l] eqn:Hl; [done|].
    assert (f ∈ List.filter is_csv_name listing) as [Hf Hcsv]%elem_of_csv_files
      by (rewrite Hl; left).
    rewrite (Hall f Hf) in Hcsv. done.
Qed.

Lemma get_latest_csv_Some (listing : list string) (f : string) :
  py_max Strptime.gt timestamp_of (List.filter is_csv_name listing) = Ok f →
  get_latest_csv listing = Ok (Some (path_join archive_folder f)).
Proof.
  unfold get_latest_csv. intros Hmax.
  destruct (List.filter is_csv_name listing) as [|x l]; [done|].
  by rewrite Hmax.
Qed.

(** C1, as stated, fails: a name with the prefix and the suffix whose middle
    is no timestamp makes the locator raise instead of returning a path. *)
Lemma get_latest_csv_unparsable_name :
  is_csv_name "IOCL_x.csv" = true
  ∧ get_latest_csv ["IOCL_x.csv"]
    = Raise (ValueError "time data does not match format").
Proof. split; reflexivity. Qed.

(** C1 (amended): when the middle of every name with the prefix [IOCL_] and
    the suffix [.csv] parses as a timestamp, a listing with such a name
    yields the path of the first such file whose timestamp is greatest: no
    such file has a later timestamp, and the ones listed before it are
    strictly earlier.  A listing with no such name yields [None]. *)
Theorem get_latest_csv_latest (listing : list string) :
  (∀ f, f ∈ listing → is_csv_name f = true → raises (timestamp_of f) = false) →
  ((∀ f, f ∈ listing → is_csv_name f = false) → get_latest_csv listing = Ok None)
  ∧ ((∃ f, f ∈ listing ∧ is_csv_name f = true) →
     ∃ f t,
       get_latest_csv listing = Ok (Some (path_join archive_folder f))
       ∧ f ∈ listing ∧ is_csv_name f = true
       ∧ timestamp_of f = Ok t
       ∧ (∀ g u, g ∈ listing → is_csv_name g = true → timestamp_of g = Ok u →
          Strptime.gt u t = false)
       ∧ first_greatest Strptime.gt timestamp_of
           (List.filter is_csv_name listing) f).
Proof.
  intros Hparse. split.
  - intros Hnone%csv_files_nil. unfold get_latest_csv. by rewrite Hnone.
  - intros (f0 & Hf0 & Hcsv0).
    assert (List.filter is_csv_name listing ≠ []) as Hne.
    { intros Hnil. rewrite csv_files_nil in Hnil.
      rewrite (Hnil f0 Hf0) in Hcsv0. done. }
    assert (raises (py_max Strptime.gt timestamp_of
                      (List.filter is_csv_name listing)) = false) as Hok.
    { apply py_max_raises; [done|].
      intros x [Hx Hcsv]%elem_of_csv_files. by apply Hparse. }
    apply raises_false in Hok as [f Hmax].
    pose proof (py_max_spec _ _ datetime_gt_asym datetime_le_lt_trans _ _ Hmax)
      as Hfirst.
    pose proof Hfirst as (before & after & t & Hsplit & Ht & Hbefore & Hafter).
    assert (f ∈ List.filter is_csv_name listing) as [Hf Hcsv]%elem_of_csv_files.
    { rewrite Hsplit. apply elem_of_app. right. left. }
    exists f, t. split; [by apply get_latest_csv_Some|].
    repeat split; try done.
    intros g u Hg Hgcsv Hu.
    assert (g ∈ before ++ f :: after) as Hin
      by (rewrite <-Hsplit; by apply elem_of_csv_files).
    apply elem_of_app in Hin as [Hin|Hin].
    + apply datetime_gt_asym. by eapply Hbefore.
    + apply elem_of_cons in Hin as [->|Hin].
      * rewrite Ht in Hu. injection Hu as <-. apply TupleOrder.gt_irrefl.
      * by eapply Hafter.
Qed.

(** The scenario of the specification: of the files stamped
    [2024_01_01_120000] and [2024_06_15_090000] the second is selected. *)
Lemma get_latest_csv_latest_witness :
  ∃ f t,
    get_latest_csv ["IOCL_2024_01_01_120000.csv"; "IOCL_2024_06_15_090000.csv"]
    = Ok (Some (path_join archive_folder f))
    ∧ f ∈ ["IOCL_2024_01_01_120000.csv"; "IOCL_2024_06_15_090000.csv"]
    ∧ is_csv_name f = true
    ∧ timestamp_of f = Ok t
    ∧ (∀ g u,
         g ∈ ["IOCL_2024_01_01_120000.csv"; "IOCL_2024_06_15_090000.csv"] →
         is_csv_name g = true → timestamp_of g = Ok u →
         Strptime.gt u t = false)
    ∧ first_greatest Strptime.gt timestamp_of
        (List.filter is_csv_name
           ["IOCL_2024_01_01_120000.csv"; "IOCL_2024_06_15_090000.csv"]) f.
Proof.
  apply (get_latest_csv_latest
           ["IOCL_2024_01_01_120000.csv"; "IOCL_2024_06_15_090000.csv"]).
  - intros f Hf _. apply list_elem_of_In in Hf. simpl in Hf.
    destruct Hf as [<-|[<-|[]]]; reflexivity.
  - exists "IOCL_2024_01_01_120000.csv". split; [left | reflexivity].
Defined.

(** C10: the locator returns without raising exactly when the middle of
    every name with the prefix and the suffix parses as a timestamp; on the
    listing that holds only [IOCL_x.csv] the parse fails and the locator
    raises [ValueError]. *)
Theorem get_latest_csv_total_iff :
  (∀ listing,
     raises (get_latest_csv listing) = false
     ↔ ∀ f, f ∈ listing → is_csv_name f = true → raises (timestamp_of f) = false)
  ∧ is_csv_name "IOCL_x.csv" = true
  ∧ timestamp_of "IOCL_x.csv"
    = Raise (ValueError "time data does not match format")
  ∧ raises (get_latest_csv ["IOCL_x.csv"]) = true.
Proof.
  split; [|repeat split].
  intros listing. unfold get_latest_csv.
  destruct (List.filter is_csv_name listing) as [|x l] eqn:Hl.
  - split; [|done]. intros _ f Hf Hcsv.
    pose proof (proj1 (csv_files_nil listing) Hl) as Hnone.
    by rewrite (Hnone f Hf) in Hcsv.
  - assert (∀ r : result string,
              raises (result_bind r (λ latest_file,
                Ok (Some (path_join archive_folder latest_file)))) = raises r)
      as -> by by intros [].
    rewrite (py_max_raises Strptime.gt timestamp_of (x :: l)) by done.
    rewrite <-Hl. split.
    + intros H f Hf Hcsv. apply H. by apply elem_of_csv_files.
    + intros H f [Hf Hcsv]%elem_of_csv_files. by apply H.
Qed.

(** ** The order of strings and [sorted] *)

Module StrOrder.

Lemma lt_not_le (a b : string) : Str.lt a b = negb (String.leb b a).
Proof.
  unfold Str.lt, String.ltb, String.leb. rewrite String.compare_antisym.
  by destruct (String.compare b a).
Qed.

Lemma le_leb (a b : string) : Str.le a b ↔ String.le a b.
Proof.
  unfold Str.le, String.le. rewrite lt_not_le.
  destruct (String.leb a b); simpl; intuition congruence.
Qed.

Lemma lt_le (a b : string) : Str.lt a b = true → Str.le a b.
Proof.
  unfold Str.le, Str.lt, String.ltb. rewrite (String.compare_antisym a b).
  by destruct (String.compare b a).
Qed.

Lemma le_trans (a b c : string) : Str.le a b → Str.le b c → Str.le a c.
Proof. rewrite !le_leb. apply (transitivity (R := String.le)). Qed.

Lemma le_neq_lt (a b : string) : Str.le a b → a ≠ b → Str.lt a b = true.
Proof.
  unfold Str.le, Str.lt, String.ltb. rewrite (String.compare_antisym a b).
  destruct (String.compare b a) eqn:Hc; simpl; try done.
  intros _ Hne. apply String.compare_eq_iff in Hc. by subst.
Qed.

Lemma lt_irrefl (a : string) : Str.lt a a = false.
Proof.
  destruct (Str.lt a a) eqn:H; [|done].
  pose proof (lt_le _ _ H) as Hle. unfold Str.le in Hle. congruence.
Qed.

#[global] Instance le_transitive : Transitive Str.le.
Proof. intros a b c. apply le_trans. Qed.

End StrOrder.

Lemma insert_sorted_Permutation (x : string) (ys : list string) :
  insert_sorted x ys ≡ₚ x :: ys.
Proof.
  induction ys as [|y ys IH]; simpl; [done|].
  destruct (Str.lt y x); [|done].
  rewrite IH. apply Permutation_swap.
Qed.

Lemma sorted_Permutation (xs : list string) : sorted xs ≡ₚ xs.
Proof.
  induction xs as [|x xs IH]; simpl; [done|].
  by rewrite insert_sorted_Permutation, IH.
Qed.

Lemma insert_sorted_HdRel (a x : string) (ys : list string) :
  Str.le a x → HdRel Str.le a ys →
  HdRel Str.le a (insert_sorted x ys).
Proof.
  intros Hax Hhd. destruct ys as [|y ys]; simpl; [by constructor|].
  destruct (Str.lt y x); constructor; [|done].
  by inversion Hhd.
Qed.

Lemma insert_sorted_Sorted (x : string) (ys : list string) :
  Sorted Str.le ys → Sorted Str.le (insert_sorted x ys).
Proof.
  induction 1 as [|y ys Hsorted IH Hhd]; simpl.
  - by repeat constructor.
  - destruct (Str.lt y x) eqn:Hlt.
    + constructor; [done|].
      apply insert_sorted_HdRel; [by apply StrOrder.lt_le | done].
    + constructor; [by constructor|]. by constructor.
Qed.

Lemma sorted_Sorted (xs : list string) : Sorted Str.le (sorted xs).
Proof.
  induction xs as [|x xs IH]; simpl; [constructor|].
  by apply insert_sorted_Sorted.
Qed.

(** A sorted list without repetitions increases strictly. *)
Lemma StronglySorted_le_NoDup_lt (xs : list string) :
  StronglySorted Str.le xs → NoDup xs →
  StronglySorted (λ a b, Str.lt a b = true) xs.
Proof.
  induction 1 as [|x xs Hss IH Hall]; intros Hnd; [constructor|].
  apply NoDup_cons in Hnd as [Hx Hnd]. constructor; [by apply IH|].
  rewrite List.Forall_forall in Hall |- *. intros y Hy.
  apply StrOrder.le_neq_lt; [by apply Hall|].
  intros ->. by apply Hx, list_elem_of_In.
Qed.

(** ** [unique] *)

Lemma elem_of_unique (xs : list string) (x : string) : x ∈ unique xs ↔ x ∈ xs.
Proof.
  induction xs as [|y xs IH]; simpl; [done|].
  rewrite !elem_of_cons, list_elem_of_In, List.filter_In, <-list_elem_of_In, IH.
  destruct (String.eqb_spec x y) as [->|Hne]; simpl; intuition congruence.
Qed.

Lemma NoDup_filter_bool {A} (p : A → bool) (xs : list A) :
  NoDup xs → NoDup (List.filter p xs).
Proof.
  induction 1 as [|x xs Hx Hnd IH]; simpl; [constructor|].
  destruct (p x); [|done]. constructor; [|done].
  rewrite list_elem_of_In, List.filter_In, <-list_elem_of_In. tauto.
Qed.

Lemma NoDup_unique (xs : list string) : NoDup (unique xs).
Proof.
  induction xs as [|x xs IH]; simpl; [constructor|].
  constructor; [|by apply NoDup_filter_bool].
  rewrite list_elem_of_In, List.filter_In, String.eqb_refl. simpl.
  intros [_ [=]].
Qed.

(** Sorting the distinct values: strictly increasing, same values. *)
Lemma sorted_unique_spec (xs : list string) :
  StronglySorted (λ a b, Str.lt a b = true) (sorted (unique xs))
  ∧ ∀ x, x ∈ sorted (unique xs) ↔ x ∈ xs.
Proof.
  split.
  - apply StronglySorted_le_NoDup_lt.
    + apply Sorted_StronglySorted; [apply _ | apply sorted_Sorted].
    + rewrite sorted_Permutation. apply NoDup_unique.
  - intros x. by rewrite sorted_Permutation, elem_of_unique.
Qed.

(** ** Selecting rows with a mask *)

Lemma getitem_eq_mask (col : Row → string) (value : string) (df : DataFrame) :
  getitem_mask df (eq_mask col value df)
  = List.filter (λ r, String.eqb (col r) value) df.
Proof.
  induction df as [|r df IH]; [done|].
  unfold eq_mask in *. rewrite fmap_cons. simpl. by rewrite IH.
Qed.

Lemma apply_filter_filter (col : Row → string) (selection : string) (df : DataFrame) :
  apply_filter col selection df
  = List.filter (λ r, String.eqb selection all_sentinel
                      || String.eqb (col r) selection) df.
Proof.
  unfold apply_filter. rewrite getitem_eq_mask.
  destruct (String.eqb selection all_sentinel); simpl; [|done].
  induction df as [|r df IH]; simpl; [done|]. by rewrite <-IH.
Qed.

Lemma elem_of_apply_filter (col : Row → string) (selection : string)
    (df : DataFrame) (r : Row) :
  r ∈ apply_filter col selection df
  ↔ r ∈ df ∧ (selection = all_sentinel ∨ col r = selection).
Proof.
  rewrite apply_filter_filter, list_elem_of_In, List.filter_In, <-list_elem_of_In.
  rewrite orb_true_iff, !String.eqb_eq. done.
Qed.

(** ** The two filters *)

Lemma filter_bool_comm {A} (p q : A → bool) (xs : list A) :
  List.filter p (List.filter q xs) = List.filter q (List.filter p xs).
Proof.
  induction xs as [|x xs IH]; simpl; [done|].
  destruct (p x) eqn:Hp, (q x) eqn:Hq; simpl; rewrite ?Hp, ?Hq, ?IH; done.
Qed.

Lemma filter_bool_idemp {A} (p : A → bool) (xs : list A) :
  List.filter p (List.filter p xs) = List.filter p xs.
Proof.
  induction xs as [|x xs IH]; simpl; [done|].
  destruct (p x) eqn:Hp; simpl; rewrite ?Hp, ?IH; done.
Qed.

Lemma apply_filter_comm (col1 col2 : Row → string) (s1 s2 : string) (df : DataFrame) :
  apply_filter col2 s2 (apply_filter col1 s1 df)
  = apply_filter col1 s1 (apply_filter col2 s2 df).
Proof. rewrite !apply_filter_filter. apply filter_bool_comm. Qed.

Lemma apply_filter_idemp (col : Row → string) (s : string) (df : DataFrame) :
  apply_filter col s (apply_filter col s df) = apply_filter col s df.
Proof. rewrite !apply_filter_filter. apply filter_bool_idemp. Qed.

(** C4: for fixed selections, filtering by state and then by district gives
    the rows that filtering by district and then by state gives, and either
    filter applied twice gives what it gives applied once. *)
Theorem filters_commute_and_idempotent
    (df : DataFrame) (selected_state selected_district : string) :
  filter_district selected_district (filter_state selected_state df)
  = filter_state selected_state (filter_district selected_district df)
  ∧ filter_state selected_state (filter_state selected_state df)
    = filter_state selected_state df
  ∧ filter_district selected_district (filter_district selected_district df)
    = filter_district selected_district df.
Proof.
  unfold filter_state, filter_district. split; [|split].
  - apply apply_filter_comm.
  - apply apply_filter_idemp.
  - apply apply_filter_idemp.
Qed.

(** ** Runs of the script *)

Lemma bind_run {A B} (m : M A) (k : A → M B) (env : Env)
    (h h1 : gmap loc DataFrame) (a : A) (out1 : list event) :
  m env h = (Ok a, h1, out1) →
  (m ≫= k) env h
  = (value_of (k a env h1), heap_of (k a env h1), out1 ++ drawn (k a env h1)).
Proof.
  intros Hm. unfold mbind, M_bind, bind. rewrite Hm.
  by destruct (k a env h1) as [[r h2] out2].
Qed.

Lemma bind_raise {A B} (m : M A) (k : A → M B) (env : Env)
    (h h1 : gmap loc DataFrame) (e : exn) (out1 : list event) :
  m env h = (Raise e, h1, out1) → (m ≫= k) env h = (Raise e, h1, out1).
Proof. intros Hm. unfold mbind, M_bind, bind. by rewrite Hm. Qed.

Lemma alloc_run (df : DataFrame) (env : Env) (h : gmap loc DataFrame) :
  ∃ l, alloc df env h = (Ok l, <[l := df]> h, []) ∧ h !! l = None.
Proof.
  exists (fresh (dom h)). split; [done|].
  apply not_elem_of_dom, is_fresh.
Qed.

Lemma deref_run (l : loc) (df : DataFrame) (env : Env) (h : gmap loc DataFrame) :
  h !! l = Some df → deref l env h = (Ok df, h, []).
Proof. intros Hl. unfold deref. by rewrite Hl. Qed.

(** A variable is rebound to a frame that holds the filtered rows; the
    frames of the heap stay as they are. *)
Lemma rebind_filtered_run (col : Row → string) (selection : string) (df : loc)
    (rows : DataFrame) (env : Env) (h : gmap loc DataFrame) :
  h !! df = Some rows →
  ∃ df' h',
    rebind_filtered col selection df env h = (Ok df', h', [])
    ∧ h ⊆ h'
    ∧ h' !! df' = Some (apply_filter col selection rows).
Proof.
  intros Hdf. unfold rebind_filtered, apply_filter.
  destruct (String.eqb selection all_sentinel); simpl.
  - by exists df, h.
  - destruct (alloc_run (getitem_mask rows (eq_mask col selection rows)) env h)
      as (l & Halloc & Hfresh).
    exists l, (<[l := getitem_mask rows (eq_mask col selection rows)]> h).
    split; [|split].
    + rewrite (bind_run _ _ _ _ _ _ _ (deref_run _ _ env _ Hdf)).
      by rewrite Halloc.
    + by apply insert_subseteq.
    + apply lookup_insert_eq.
Qed.

Lemma create_map_run (df : loc) (rows : DataFrame) (env : Env)
    (h : gmap loc DataFrame) :
  h !! df = Some rows →
  ∃ h', create_map df env h = (Ok (map_result rows), h', map_warning rows)
        ∧ h ⊆ h'.
Proof.
  intros Hdf. unfold create_map, map_result, map_warning.
  destruct (alloc_run (dropna_lat_lon rows) env h) as (l & Halloc & Hfresh).
  exists (<[l := dropna_lat_lon rows]> h). split; [|by apply insert_subseteq].
  rewrite (bind_run _ _ _ _ _ _ _ (deref_run _ _ env _ Hdf)).
  rewrite (bind_run _ _ _ _ _ _ _ Halloc).
  rewrite (bind_run _ _ _ _ _ _ _
             (deref_run l _ env _ (lookup_insert_eq h l _))).
  by destruct (dropna_lat_lon rows).
Qed.

Ltac run_step H :=
  match goal with
  | |- context [ (?m ≫= ?k) ?env ?h ] =>
      rewrite (bind_run m k env h _ _ _ H);
      unfold value_of, heap_of, drawn; simpl
  end.

Section ScriptFacts.
Variable to_double : string → option float.

Lemma dashboard_run (df : loc) (rows : DataFrame) (env : Env)
    (h : gmap loc DataFrame) :
  h !! df = Some rows →
  ∃ h', dashboard df env h = (Ok tt, h', dashboard_events env rows) ∧ h ⊆ h'.
Proof.
  intros Hdf.
  destruct (rebind_filtered_run State (selected_state env rows) df rows env h Hdf)
    as (df1 & h1 & Hrun1 & Hsub1 & Hdf1).
  destruct (rebind_filtered_run District (selected_district env rows) df1 _ env h1 Hdf1)
    as (df2 & h2 & Hrun2 & Hsub2 & Hdf2).
  destruct (create_map_run df2 _ env h2 Hdf2) as (h3 & Hrun3 & Hsub3).
  exists h3. split; [|by repeat (etrans; [eassumption|])].
  unfold dashboard.
  run_step (eq_refl : st_sidebar_header "Filters" env h = (Ok tt, h, _)).
  run_step (deref_run df rows env h Hdf).
  run_step (eq_refl : st_sidebar_selectbox "Select State" (state_options rows) env h
                      = (Ok (selected_state env rows), h, _)).
  run_step (eq_refl : st_sidebar_selectbox "Select District"
                        (district_options rows (selected_state env rows)) env h
                      = (Ok (selected_district env rows), h, _)).
  run_step Hrun1. run_step Hrun2.
  run_step (deref_run df2 _ env h2 Hdf2).
  fold (shown_rows env rows) in *.
  unfold filter_district, filter_state in *.
  set (shown := apply_filter District (selected_district env rows)
                  (apply_filter State (selected_state env rows) rows)) in *.
  unfold mbind, M_bind, bind. simpl. rewrite Hrun3.
  unfold dashboard_events, shown_rows, filter_district, filter_state.
  fold shown. unfold map_events.
  destruct (map_result shown); simpl; by rewrite <-?List.app_assoc.
Qed.

Lemma load_data_not_found (env : Env) (h : gmap loc DataFrame) :
  get_latest_csv (listdir env) = Ok None →
  load_data to_double env h
  = (Ok None, h, [EvError "No CSV file found in the archive folder."]).
Proof.
  intros Hnone. unfold load_data.
  run_step (eq_refl : ask env h = (Ok env, h, _)).
  unfold mbind, M_bind, bind, lift. by rewrite Hnone.
Qed.


Lemma load_data_raises (env : Env) (h : gmap loc DataFrame) (e : exn) :
  get_latest_csv (listdir env) = Raise e →
  load_data to_double env h = (Raise e, h, []).
Proof.
  intros Hraise. unfold load_data.
  run_step (eq_refl : ask env h = (Ok env, h, _)).
  unfold mbind, M_bind, bind, lift. by rewrite Hraise.
Qed.


(** A run of [main] on a folder where the locator raises: the title is drawn
    and the exception ends the run. *)
Lemma main_raises (env : Env) (h : gmap loc DataFrame) (e : exn) :
  get_latest_csv (listdir env) = Raise e →
  main to_double env h = (Raise e, h, [EvTitle "IOCL Petrol Bunk Dashboard"]).
Proof.
  intros Hraise. unfold main.
  run_step (eq_refl : st_title "IOCL Petrol Bunk Dashboard" env h = (Ok tt, h, _)).
  by rewrite (bind_raise _ _ _ _ _ _ _ (load_data_raises env h e Hraise)).
Qed.

(** C6: when the locator reports that there is no file, the loader shows an
    error and returns no data, and [main] draws the title and that error and
    nothing else: no filter, statistic, chart, map or table. *)
Theorem not_found_stops_rendering (env : Env) (h : gmap loc DataFrame) :
  get_latest_csv (listdir env) = Ok None →
  load_data to_double env h
  = (Ok None, h, [EvError "No CSV file found in the archive folder."])
  ∧ main to_double env h
    = (Ok tt, h,
       [EvTitle "IOCL Petrol Bunk Dashboard";
        EvError "No CSV file found in the archive folder."]).
Proof.
  intros Hnone. split; [by apply load_data_not_found|].
  unfold main.
  run_step (eq_refl : st_title "IOCL Petrol Bunk Dashboard" env h = (Ok tt, h, _)).
  run_step (load_data_not_found env h Hnone). done.
Qed.


End ScriptFacts.

(** A folder without archive files. *)
Lemma not_found_stops_rendering_witness :
  load_data short_decimal Demo.no_file ∅
  = (Ok None, ∅, [EvError "No CSV file found in the archive folder."])
  ∧ main short_decimal Demo.no_file ∅
    = (Ok tt, ∅,
       [EvTitle "IOCL Petrol Bunk Dashboard";
        EvError "No CSV file found in the archive folder."]).
Proof. apply (not_found_stops_rendering short_decimal Demo.no_file ∅). reflexivity. Defined.

Lemma apply_filter_sublist (col : Row → string) (selection : string) (df : DataFrame) :
  apply_filter col selection df `sublist_of` df.
Proof.
  rewrite apply_filter_filter.
  induction df as [|r df IH]; simpl; [done|].
  destruct (_ || _); by constructor.
Qed.

(** C9: the two filter steps bind the variable to derived frames whose rows
    are rows of the loaded frame, in order, and every frame that was in the
    heap before, the loaded one among them, holds the same rows after the
    filters and after the whole of [dashboard]. *)
Theorem filtering_keeps_loaded_frame
    (env : Env) (h : gmap loc DataFrame) (df : loc) (rows : DataFrame)
    (selected_state selected_district : string) :
  h !! df = Some rows →
  (∃ df1 h1 df2 h2,
     rebind_filtered State selected_state df env h = (Ok df1, h1, [])
     ∧ rebind_filtered District selected_district df1 env h1 = (Ok df2, h2, [])
     ∧ h2 !! df2
       = Some (filter_district selected_district (filter_state selected_state rows))
     ∧ filter_district selected_district (filter_state selected_state rows)
       `sublist_of` rows
     ∧ h2 !! df = Some rows
     ∧ ∀ l frame, h !! l = Some frame → h2 !! l = Some frame)
  ∧ value_of (dashboard df env h) = Ok tt
  ∧ heap_of (dashboard df env h) !! df = Some rows
  ∧ ∀ l frame, h !! l = Some frame →
               heap_of (dashboard df env h) !! l = Some frame.
Proof.
  intros Hdf. split.
  - destruct (rebind_filtered_run State selected_state df rows env h Hdf)
      as (df1 & h1 & Hrun1 & Hsub1 & Hdf1).
    destruct (rebind_filtered_run District selected_district df1 _ env h1 Hdf1)
      as (df2 & h2 & Hrun2 & Hsub2 & Hdf2).
    exists df1, h1, df2, h2. repeat split; try done.
    + etrans; apply apply_filter_sublist.
    + eapply lookup_weaken; [|exact Hsub2]. by eapply lookup_weaken.
    + intros l frame Hl. eapply lookup_weaken; [|exact Hsub2].
      by eapply lookup_weaken.
  - destruct (dashboard_run df rows env h Hdf) as (h' & Hrun & Hsub).
    rewrite Hrun. unfold value_of, heap_of. simpl. repeat split; try done.
    + by eapply lookup_weaken.
    + intros l frame Hl. by eapply lookup_weaken.
Qed.

(** Two stations of Tamil Nadu, filtered down to the district Salem. *)
Lemma filtering_keeps_loaded_frame_witness :
  (∃ df1 h1 df2 h2,
     rebind_filtered State "Tamil Nadu" 0%nat Demo.no_file
       (Demo.one_frame [Demo.located; Demo.unlocated]) = (Ok df1, h1, [])
     ∧ rebind_filtered District "Salem" df1 Demo.no_file h1 = (Ok df2, h2, [])
     ∧ h2 !! df2
       = Some (filter_district "Salem"
                 (filter_state "Tamil Nadu" [Demo.located; Demo.unlocated]))
     ∧ filter_district "Salem"
         (filter_state "Tamil Nadu" [Demo.located; Demo.unlocated])
       `sublist_of` [Demo.located; Demo.unlocated]
     ∧ h2 !! 0%nat = Some [Demo.located; Demo.unlocated]
     ∧ ∀ l frame,
         Demo.one_frame [Demo.located; Demo.unlocated] !! l = Some frame →
         h2 !! l = Some frame)
  ∧ value_of (dashboard 0%nat Demo.no_file
                (Demo.one_frame [Demo.located; Demo.unlocated])) = Ok tt
  ∧ heap_of (dashboard 0%nat Demo.no_file
               (Demo.one_frame [Demo.located; Demo.unlocated])) !! 0%nat
    = Some [Demo.located; Demo.unlocated]
  ∧ ∀ l frame,
      Demo.one_frame [Demo.located; Demo.unlocated] !! l = Some frame →
      heap_of (dashboard 0%nat Demo.no_file
                 (Demo.one_frame [Demo.located; Demo.unlocated])) !! l
      = Some frame.
Proof.
  apply (filtering_keeps_loaded_frame Demo.no_file
           (Demo.one_frame [Demo.located; Demo.unlocated]) 0%nat
           [Demo.located; Demo.unlocated] "Tamil Nadu" "Salem").
  vm_compute. reflexivity.
Defined.

(** ** Rows without coordinates *)

Lemma elem_of_dropna_lat_lon (df : DataFrame) (r : Row) :
  r ∈ dropna_lat_lon df
  ↔ r ∈ df ∧ Num.isna (lat r) = false ∧ Num.isna (lon r) = false.
Proof.
  unfold dropna_lat_lon, has_coordinates.
  rewrite list_elem_of_In, List.filter_In, <-list_elem_of_In.
  rewrite andb_true_iff, !negb_true_iff. done.
Qed.

Lemma dropna_lat_lon_skip (before after : DataFrame) (r : Row) :
  Num.isna (lat r) = true ∨ Num.isna (lon r) = true →
  dropna_lat_lon (before ++ r :: after) = dropna_lat_lon (before ++ after).
Proof.
  intros Hna. unfold dropna_lat_lon. rewrite !List.filter_app. simpl.
  unfold has_coordinates at 2.
  by destruct Hna as [-> | ->]; rewrite ?andb_false_r.
Qed.

Lemma bind_singleton_fmap {A B} (f : A → B) (xs : list A) :
  (x ← xs; [f x]) = f <$> xs.
Proof. induction xs as [|x xs IH]; csimpl; [done|]. by rewrite IH. Qed.

Lemma plotted_points_build_deck (map_df : DataFrame) :
  plotted_points (build_deck map_df)
  = (λ r, mk_Point (lon r) (lat r) 100 [200; 30; 0; 160]%nat) <$> map_df.
Proof.
  unfold plotted_points, build_deck. csimpl. rewrite app_nil_r.
  apply bind_singleton_fmap.
Qed.

(** *** Sums with a zero put in *)

Module FloatFacts.










End FloatFacts.



Ltac not_drawn H :=
  simpl in H;
  repeat (apply elem_of_cons in H as [H|H]; [discriminate|]);
  by apply elem_of_nil in H.

(** C7: when no row of the filtered set has both coordinates, [dashboard]
    ends normally, draws the statistics, the chart and the table, shows a
    warning in the map section and draws no map. *)
Theorem no_coordinates_warns_without_map
    (env : Env) (h : gmap loc DataFrame) (df : loc) (rows : DataFrame) :
  h !! df = Some rows →
  dropna_lat_lon (shown_rows env rows) = [] →
  (∃ h',
     dashboard df env h
     = (Ok tt, h',
        sidebar_events env rows
        ++ statistics_events (shown_rows env rows)
        ++ chart_events (shown_rows env rows)
        ++ [EvHeader "Petrol Bunk Locations";
            EvWarning "No valid location data available for the selected filters."]
        ++ table_events (shown_rows env rows)))
  ∧ ∀ deck, EvPydeckChart deck ∉ drawn (dashboard df env h).
Proof.
  intros Hdf Hnone.
  destruct (dashboard_run df rows env h Hdf) as (h' & Hrun & _).
  assert (dashboard_events env rows
          = sidebar_events env rows
            ++ statistics_events (shown_rows env rows)
            ++ chart_events (shown_rows env rows)
            ++ [EvHeader "Petrol Bunk Locations";
                EvWarning "No valid location data available for the selected filters."]
            ++ table_events (shown_rows env rows)) as Hevents.
  { unfold dashboard_events, map_events, map_warning, map_result.
    by rewrite Hnone. }
  split.
  - exists h'. by rewrite Hrun, Hevents.
  - intros deck Hin. rewrite Hrun in Hin. unfold drawn in Hin.
    rewrite Hevents in Hin. not_drawn Hin.
Qed.

(** One station, whose latitude is missing. *)
Lemma no_coordinates_warns_without_map_witness :
  (∃ h',
     dashboard 0%nat Demo.no_file (Demo.one_frame [Demo.unlocated])
     = (Ok tt, h',
        sidebar_events Demo.no_file [Demo.unlocated]
        ++ statistics_events (shown_rows Demo.no_file [Demo.unlocated])
        ++ chart_events (shown_rows Demo.no_file [Demo.unlocated])
        ++ [EvHeader "Petrol Bunk Locations";
            EvWarning "No valid location data available for the selected filters."]
        ++ table_events (shown_rows Demo.no_file [Demo.unlocated])))
  ∧ ∀ deck,
      EvPydeckChart deck
      ∉ drawn (dashboard 0%nat Demo.no_file (Demo.one_frame [Demo.unlocated])).
Proof.
  apply (no_coordinates_warns_without_map Demo.no_file
           (Demo.one_frame [Demo.unlocated]) 0%nat [Demo.unlocated]).
  - vm_compute. reflexivity.
  - vm_compute. reflexivity.
Defined.

(** C5: a record of the filtered set that lacks a coordinate is counted in
    the number of stations, its prices are in the columns that are averaged,
    and it has its row in the table, while the map section is the one of the
    set without the record and every plotted point has both coordinates. *)
Theorem missing_coordinates_only_off_the_map
    (env : Env) (h : gmap loc DataFrame) (df : loc) (rows : DataFrame)
    (before after : DataFrame) (r : Row) :
  h !! df = Some rows →
  shown_rows env rows = before ++ r :: after →
  Num.isna (lat r) = true ∨ Num.isna (lon r) = true →
  (∃ h',
     dashboard df env h
     = (Ok tt, h',
        sidebar_events env rows
        ++ [EvHeader "Basic Statistics";
            EvMetric 1 "Total Petrol Bunks"
              (IntValue (length before + 1 + length after));
            EvMetric 2 "Average Petrol Price"
              (StrValue (rupee +:+ Num.format_2f (Num.mean
                 ((Petrol_Price <$> before)
                  ++ Petrol_Price r :: (Petrol_Price <$> after)))));
            EvMetric 3 "Average Diesel Price"
              (StrValue (rupee +:+ Num.format_2f (Num.mean
                 ((Diesel_Price <$> before)
                  ++ Diesel_Price r :: (Diesel_Price <$> after)))))]
        ++ chart_events (before ++ r :: after)
        ++ map_events (before ++ after)
        ++ [EvHeader "Petrol Bunk Details";
            EvDataframe (table_view before ++ table_row r :: table_view after)]))
  ∧ ∀ deck p,
      EvPydeckChart deck ∈ drawn (dashboard df env h) →
      p ∈ plotted_points deck →
      Num.isna (p_lat p) = false ∧ Num.isna (p_lon p) = false.
Proof.
  intros Hdf Hshown Hna.
  destruct (dashboard_run df rows env h Hdf) as (h' & Hrun & _).
  split.
  - exists h'. rewrite Hrun. do 3 f_equal.
    unfold dashboard_events. rewrite Hshown. f_equal.
    unfold statistics_events, map_events, map_warning, map_result, table_events,
      table_view.
    rewrite (dropna_lat_lon_skip _ _ _ Hna).
    rewrite !fmap_app, !fmap_cons, length_app. simpl.
    by replace (length before + S (length after))%nat
      with (length before + 1 + length after)%nat by lia.
  - intros deck p Hin Hp. rewrite Hrun in Hin. unfold drawn in Hin.
    unfold dashboard_events, map_events, map_warning, map_result in Hin.
    destruct (dropna_lat_lon (shown_rows env rows)) as [|r0 map_rows] eqn:Hmap;
      [not_drawn Hin|].
    simpl in Hin.
    repeat (apply elem_of_cons in Hin as [Hin|Hin]; [try discriminate|]);
      [|by apply elem_of_nil in Hin].
    injection Hin as ->. rewrite plotted_points_build_deck in Hp.
    apply list_elem_of_fmap in Hp as (r' & -> & Hr'). simpl.
    rewrite <-Hmap in Hr'. apply elem_of_dropna_lat_lon in Hr'. tauto.
Qed.

(** Two stations; the second has no latitude. *)
Lemma missing_coordinates_only_off_the_map_witness :
  (∃ h',
     dashboard 0%nat Demo.no_file (Demo.one_frame [Demo.located; Demo.unlocated])
     = (Ok tt, h',
        sidebar_events Demo.no_file [Demo.located; Demo.unlocated]
        ++ [EvHeader "Basic Statistics";
            EvMetric 1 "Total Petrol Bunks" (IntValue (1 + 1 + 0));
            EvMetric 2 "Average Petrol Price"
              (StrValue (rupee +:+ Num.format_2f (Num.mean
                 ((Petrol_Price <$> [Demo.located])
                  ++ Petrol_Price Demo.unlocated :: (Petrol_Price <$> [])))));
            EvMetric 3 "Average Diesel Price"
              (StrValue (rupee +:+ Num.format_2f (Num.mean
                 ((Diesel_Price <$> [Demo.located])
                  ++ Diesel_Price Demo.unlocated :: (Diesel_Price <$> [])))))]
        ++ chart_events ([Demo.located] ++ Demo.unlocated :: [])
        ++ map_events ([Demo.located] ++ [])
        ++ [EvHeader "Petrol Bunk Details";
            EvDataframe (table_view [Demo.located]
                         ++ table_row Demo.unlocated :: table_view [])]))
  ∧ ∀ deck p,
      EvPydeckChart deck
      ∈ drawn (dashboard 0%nat Demo.no_file
                 (Demo.one_frame [Demo.located; Demo.unlocated])) →
      p ∈ plotted_points deck →
      Num.isna (p_lat p) = false ∧ Num.isna (p_lon p) = false.
Proof.
  apply (missing_coordinates_only_off_the_map Demo.no_file
           (Demo.one_frame [Demo.located; Demo.unlocated]) 0%nat
           [Demo.located; Demo.unlocated] [Demo.located] [] Demo.unlocated).
  - vm_compute. reflexivity.
  - vm_compute. reflexivity.
  - left. vm_compute. reflexivity.
Defined.

(** C8: when some row of the filtered set has both coordinates, [create_map]
    returns a deck and warns of nothing; the deck is centred at the mean
    latitude and the mean longitude of the rows that have both coordinates,
    and it plots one point for each of them, in order, with radius 100 and
    colour [200, 30, 0, 160]. *)
Theorem map_center_is_centroid
    (env : Env) (h : gmap loc DataFrame) (df : loc) (shown : DataFrame) :
  h !! df = Some shown →
  (∃ r, r ∈ shown ∧ Num.isna (lat r) = false ∧ Num.isna (lon r) = false) →
  ∃ h' deck,
    create_map df env h = (Ok (Some deck), h', [])
    ∧ latitude (initial_view_state deck) = Num.mean (lat <$> dropna_lat_lon shown)
    ∧ longitude (initial_view_state deck) = Num.mean (lon <$> dropna_lat_lon shown)
    ∧ plotted_points deck
      = (λ r, mk_Point (lon r) (lat r) 100 [200; 30; 0; 160]%nat)
        <$> dropna_lat_lon shown
    ∧ ∀ r, r ∈ dropna_lat_lon shown
           ↔ r ∈ shown ∧ Num.isna (lat r) = false ∧ Num.isna (lon r) = false.
Proof.
  intros Hdf (r & Hr & Hlat & Hlon).
  destruct (create_map_run df shown env h Hdf) as (h' & Hrun & _).
  assert (r ∈ dropna_lat_lon shown) as Hin by by apply elem_of_dropna_lat_lon.
  unfold map_result, map_warning in Hrun.
  destruct (dropna_lat_lon shown) as [|r0 map_rows] eqn:Hmap;
    [by apply elem_of_nil in Hin|].
  exists h', (build_deck (r0 :: map_rows)). split; [done|].
  split; [done|]. split; [done|]. split; [apply plotted_points_build_deck|].
  intros r'. rewrite <-Hmap. apply elem_of_dropna_lat_lon.
Qed.

(** Two stations; the first has both coordinates. *)
Lemma map_center_is_centroid_witness :
  ∃ h' deck,
    create_map 0%nat Demo.no_file (Demo.one_frame [Demo.located; Demo.unlocated])
    = (Ok (Some deck), h', [])
    ∧ latitude (initial_view_state deck)
      = Num.mean (lat <$> dropna_lat_lon [Demo.located; Demo.unlocated])
    ∧ longitude (initial_view_state deck)
      = Num.mean (lon <$> dropna_lat_lon [Demo.located; Demo.unlocated])
    ∧ plotted_points deck
      = (λ r, mk_Point (lon r) (lat r) 100 [200; 30; 0; 160]%nat)
        <$> dropna_lat_lon [Demo.located; Demo.unlocated]
    ∧ ∀ r, r ∈ dropna_lat_lon [Demo.located; Demo.unlocated]
           ↔ r ∈ [Demo.located; Demo.unlocated]
             ∧ Num.isna (lat r) = false ∧ Num.isna (lon r) = false.
Proof.
  apply (map_center_is_centroid Demo.no_file
           (Demo.one_frame [Demo.located; Demo.unlocated]) 0%nat
           [Demo.located; Demo.unlocated]).
  - vm_compute. reflexivity.
  - exists Demo.located. split; [left|]. split; vm_compute; reflexivity.
Defined.

(** ** Prices *)






(** * Further properties of the script *)

(** ** The locator and the other files of the folder *)

Lemma get_latest_csv_raises_iff (listing : list string) :
  raises (get_latest_csv listing) = true
  ↔ ∃ f, f ∈ listing ∧ is_csv_name f = true ∧ raises (timestamp_of f) = true.
Proof.
  unfold get_latest_csv.
  destruct (List.filter is_csv_name listing) as [|x l] eqn:Hl.
  - split; [done|]. intros (f & Hf & Hcsv & _).
    pose proof (proj1 (csv_files_nil listing) Hl) as Hnone.
    by rewrite (Hnone f Hf) in Hcsv.
  - assert (∀ r : result string,
              raises (result_bind r (λ latest_file,
                Ok (Some (path_join archive_folder latest_file)))) = raises r)
      as -> by by intros [].
    destruct (raises (py_max Strptime.gt timestamp_of (x :: l))) eqn:Hmax.
    + split; [intros _|done].
      destruct (decide (Forall (λ f, raises (timestamp_of f) = false) (x :: l)))
        as [Hall|Hsome].
      * rewrite Forall_forall in Hall.
        pose proof (proj2 (py_max_raises Strptime.gt timestamp_of (x :: l)
                             ltac:(done)) Hall).
        congruence.
      * apply not_Forall_Exists in Hsome; [|apply _].
        apply Exists_exists in Hsome as (f & Hf & Hraise).
        rewrite <-Hl in Hf. apply elem_of_csv_files in Hf as [Hf Hcsv].
        exists f. repeat split; try done.
        unfold compose in Hraise.
        destruct (raises (timestamp_of f)); [done | by destruct Hraise].
    + split; [done|]. intros (f & Hf & Hcsv & Hraise).
      pose proof (proj1 (py_max_raises Strptime.gt timestamp_of (x :: l)
                           ltac:(done)) Hmax) as Hall.
      rewrite (Hall f) in Hraise; [done|].
      rewrite <-Hl. by apply elem_of_csv_files.
Qed.

Lemma get_latest_csv_None_iff (listing : list string) :
  get_latest_csv listing = Ok None
  ↔ ∀ f, f ∈ listing → is_csv_name f = false.
Proof.
  split.
  - unfold get_latest_csv.
    destruct (List.filter is_csv_name listing) as [|x l] eqn:Hl.
    + intros _. by apply csv_files_nil.
    + by destruct (py_max Strptime.gt timestamp_of (x :: l)).
  - intros Hnone%csv_files_nil. unfold get_latest_csv. by rewrite Hnone.
Qed.

(** X1: the locator reports that there is no file exactly when no name of
    the listing has the prefix [IOCL_] and the suffix [.csv]; and a name
    without them, wherever it stands in the listing, changes nothing of what
    the locator returns or raises. *)
Theorem get_latest_csv_other_files :
  (∀ listing,
     get_latest_csv listing = Ok None
     ↔ ∀ f, f ∈ listing → is_csv_name f = false)
  ∧ (∀ before other after,
       is_csv_name other = false →
       get_latest_csv (before ++ other :: after)
       = get_latest_csv (before ++ after)).
Proof.
  split; [apply get_latest_csv_None_iff|].
  intros before other after Hother. unfold get_latest_csv.
  rewrite !List.filter_app. simpl. by rewrite Hother.
Qed.

Lemma main_not_found
    (to_double : string → option float) (env : Env) (h : gmap loc DataFrame) :
  get_latest_csv (listdir env) = Ok None →
  main to_double env h
  = (Ok tt, h,
     [EvTitle "IOCL Petrol Bunk Dashboard";
      EvError "No CSV file found in the archive folder."]).
Proof.
  intros Hnone. unfold main.
  run_step (eq_refl : st_title "IOCL Petrol Bunk Dashboard" env h = (Ok tt, h, _)).
  by run_step (load_data_not_found to_double env h Hnone).
Qed.

(** X2: when the folder holds a name with the prefix and the suffix whose
    middle is no timestamp, a run of [main] that loads the data ends with an
    exception; it has then drawn the title and nothing else, and has stored
    no frame. *)
Theorem main_raises_on_unparsable_name
    (to_double : string → option float) (env : Env) (h : gmap loc DataFrame) :
  (∃ f, f ∈ listdir env ∧ is_csv_name f = true
        ∧ raises (timestamp_of f) = true) →
  raises (value_of (main to_double env h)) = true
  ∧ drawn (main to_double env h) = [EvTitle "IOCL Petrol Bunk Dashboard"]
  ∧ heap_of (main to_double env h) = h.
Proof.
  rewrite <-get_latest_csv_raises_iff.
  destruct (get_latest_csv (listdir env)) as [[path|]|e] eqn:Hloc; try done.
  intros _. by rewrite (main_raises to_double env h e Hloc).
Qed.

(** A folder with an archive name whose middle is no timestamp. *)
Lemma main_raises_on_unparsable_name_witness :
  raises (value_of (main short_decimal
                      (mk_Env ["IOCL_2024_01_01_120000.csv"; "IOCL_latest.csv"]
                         (λ _, []) Demo.first_option) ∅)) = true
  ∧ drawn (main short_decimal
             (mk_Env ["IOCL_2024_01_01_120000.csv"; "IOCL_latest.csv"]
                (λ _, []) Demo.first_option) ∅)
    = [EvTitle "IOCL Petrol Bunk Dashboard"]
  ∧ heap_of (main short_decimal
               (mk_Env ["IOCL_2024_01_01_120000.csv"; "IOCL_latest.csv"]
                  (λ _, []) Demo.first_option) ∅)
    = ∅.
Proof.
  apply (main_raises_on_unparsable_name short_decimal
           (mk_Env ["IOCL_2024_01_01_120000.csv"; "IOCL_latest.csv"]
              (λ _, []) Demo.first_option) ∅).
  exists "IOCL_latest.csv". split; [|split; vm_compute; reflexivity].
  apply list_elem_of_In. right. left. reflexivity.
Defined.

(** ** The options of the select boxes and the rows shown

    On the records of a frame whose region columns are text. *)

Lemma elem_of_state_options (df : DataFrame) (s : string) :
  s ∈ state_options df ↔ s = all_sentinel ∨ ∃ r, r ∈ df ∧ State r = s.
Proof.
  unfold state_options. simpl. rewrite elem_of_cons.
  destruct (sorted_unique_spec (State <$> df)) as [_ ->].
  rewrite list_elem_of_fmap. split.
  - intros [->|(r & -> & Hr)]; [by left | right; by exists r].
  - intros [->|(r & Hr & <-)]; [by left | right; by exists r].
Qed.

Lemma elem_of_district_options (df : DataFrame) (selected_state d : string) :
  d ∈ district_options df selected_state
  ↔ d = all_sentinel
    ∨ ∃ r, r ∈ df
           ∧ (selected_state = all_sentinel ∨ State r = selected_state)
           ∧ District r = d.
Proof.
  assert (district_options df selected_state
          = all_sentinel
            :: sorted (unique (District <$> apply_filter State selected_state df)))
    as ->.
  { unfold district_options, apply_filter.
    by destruct (String.eqb selected_state all_sentinel). }
  rewrite elem_of_cons.
  destruct (sorted_unique_spec (District <$> apply_filter State selected_state df))
    as [_ ->].
  rewrite list_elem_of_fmap. setoid_rewrite elem_of_apply_filter. split.
  - intros [->|(r & -> & Hr & Hsel)]; [by left | right; by exists r].
  - intros [->|(r & Hr & Hsel & <-)]; [by left | right; by exists r].
Qed.

(** A select box returns one of its options. *)
Lemma selected_elem_of (options : list string) (index : nat) :
  options ≠ [] → selected options index ∈ options.
Proof.
  intros Hne. unfold selected.
  destruct (options !! index) as [s|] eqn:Hs; simpl.
  - by eapply list_elem_of_lookup_2.
  - destruct options as [|s options]; [done|]. left.
Qed.

Lemma selected_state_elem_of (env : Env) (rows : DataFrame) :
  selected_state env rows ∈ state_options rows.
Proof. by apply selected_elem_of. Qed.

Lemma selected_district_elem_of (env : Env) (rows : DataFrame) :
  selected_district env rows ∈ district_options rows (selected_state env rows).
Proof.
  apply selected_elem_of. unfold district_options.
  by destruct (negb _).
Qed.

Lemma filter_bool_and {A} (p q : A → bool) (xs : list A) :
  List.filter q (List.filter p xs) = List.filter (λ x, p x && q x) xs.
Proof.
  induction xs as [|x xs IH]; simpl; [done|].
  destruct (p x) eqn:Hp; simpl; rewrite ?IH; [|done].
  by destruct (q x).
Qed.

(** X5: the rows shown after the two filter steps are the loaded rows whose
    state is the selected state (any state when the selection is [All]) and
    whose district is the selected district (any when it is [All]): all of
    them, as often as they occur, in the order of the loaded frame. *)
Theorem filters_select_matching_rows
    (df : DataFrame) (selected_state selected_district : string) :
  filter_district selected_district (filter_state selected_state df)
  = List.filter
      (λ r, (String.eqb selected_state all_sentinel
             || String.eqb (State r) selected_state)
            && (String.eqb selected_district all_sentinel
                || String.eqb (District r) selected_district)) df.
Proof.
  unfold filter_district, filter_state.
  rewrite !apply_filter_filter. apply filter_bool_and.
Qed.

Lemma elem_of_shown_rows (env : Env) (rows : DataFrame) (r : Row) :
  r ∈ shown_rows env rows
  ↔ r ∈ rows
    ∧ (selected_state env rows = all_sentinel
       ∨ State r = selected_state env rows)
    ∧ (selected_district env rows = all_sentinel
       ∨ District r = selected_district env rows).
Proof.
  unfold shown_rows, filter_district, filter_state.
  rewrite !elem_of_apply_filter. tauto.
Qed.

(** X7: a select box left on its first option selects [All], which the
    script puts first; with both boxes so, every loaded row is shown. *)
Theorem default_selection_shows_all (env : Env) (rows : DataFrame) :
  chosen env "Select State" (state_options rows) = 0%nat →
  chosen env "Select District" (district_options rows all_sentinel) = 0%nat →
  selected_state env rows = all_sentinel
  ∧ selected_district env rows = all_sentinel
  ∧ shown_rows env rows = rows.
Proof.
  intros Hstate Hdistrict.
  assert (selected_state env rows = all_sentinel) as Hs.
  { unfold selected_state, selected. by rewrite Hstate. }
  assert (selected_district env rows = all_sentinel) as Hd.
  { unfold selected_district, selected. by rewrite Hs, Hdistrict. }
  repeat split; try done.
  unfold shown_rows. by rewrite Hs, Hd.
Qed.

Lemma default_selection_shows_all_witness :
  selected_state Demo.no_file [Demo.located; Demo.unlocated] = all_sentinel
  ∧ selected_district Demo.no_file [Demo.located; Demo.unlocated] = all_sentinel
  ∧ shown_rows Demo.no_file [Demo.located; Demo.unlocated]
    = [Demo.located; Demo.unlocated].
Proof.
  apply (default_selection_shows_all Demo.no_file [Demo.located; Demo.unlocated]);
    reflexivity.
Defined.

(** ** Archive names and the text the timestamp is read from *)

Module StrFacts.

Lemma app_cons (c : ascii) (a b : string) :
  String c a +:+ b = String c (a +:+ b).
Proof. reflexivity. Qed.

Lemma app_nil_l (b : string) : "" +:+ b = b.
Proof. reflexivity. Qed.

Lemma prefix_nil (s : string) : String.prefix "" s = true.
Proof. by destruct s. Qed.

Lemma prefix_cons (c c' : ascii) (p s : string) :
  String.prefix (String c p) (String c' s)
  = if ascii_dec c c' then String.prefix p s else false.
Proof. reflexivity. Qed.

Lemma length_app (a b : string) :
  String.length (a +:+ b) = (String.length a + String.length b)%nat.
Proof.
  induction a as [|c a IH]; [done|].
  rewrite app_cons. simpl. by rewrite IH.
Qed.

Lemma substring_0_app (a b : string) :
  String.substring 0 (String.length a) (a +:+ b) = a.
Proof.
  induction a as [|c a IH]; [by destruct b|].
  rewrite app_cons. simpl. by rewrite IH.
Qed.

Lemma substring_0_length (a : string) :
  String.substring 0 (String.length a) a = a.
Proof. induction a as [|c a IH]; simpl; [done|]. by rewrite IH. Qed.

Lemma substring_skip (a b : string) (n m : nat) :
  String.substring (String.length a + n) m (a +:+ b) = String.substring n m b.
Proof.
  induction a as [|c a IH]; [done|]. rewrite app_cons. simpl. apply IH.
Qed.

Lemma substring_split (n : nat) (s : string) :
  (n ≤ String.length s)%nat →
  s = String.substring 0 n s
      +:+ String.substring n (String.length s - n) s.
Proof.
  revert s. induction n as [|n IH]; intros s Hn.
  - rewrite Nat.sub_0_r, substring_0_length. by destruct s.
  - destruct s as [|c s]; simpl in *; [lia|].
    rewrite app_cons. f_equal. apply IH. lia.
Qed.

Lemma startswith_app (p s : string) :
  Str.startswith p s = true ↔ ∃ rest, s = p +:+ rest.
Proof.
  unfold Str.startswith. revert s.
  induction p as [|c p IH]; intros s.
  - rewrite prefix_nil. split; [|done]. intros _. by exists s.
  - destruct s as [|c' s].
    + split; [done|]. intros [rest Hrest]. by rewrite app_cons in Hrest.
    + rewrite prefix_cons. setoid_rewrite app_cons.
      destruct (ascii_dec c c') as [<-|Hne].
      * rewrite IH. split.
        -- intros [rest ->]. by exists rest.
        -- intros [rest [= ->]]. by exists rest.
      * split; [done|]. intros [rest [= ? _]]. done.
Qed.

Lemma endswith_app (p s : string) :
  Str.endswith p s = true ↔ ∃ front, s = front +:+ p.
Proof.
  unfold Str.endswith, Str.last_n.
  rewrite andb_true_iff, Nat.leb_le, String.eqb_eq. split.
  - intros [Hlen Hsub].
    exists (String.substring 0 (String.length s - String.length p) s).
    pose proof (substring_split (String.length s - String.length p) s
                  ltac:(lia)) as Hsplit.
    replace (String.length s - (String.length s - String.length p))%nat
      with (String.length p) in Hsplit by lia.
    by rewrite Hsub in Hsplit.
  - intros [front ->]. rewrite length_app. split; [lia|].
    replace (String.length front + String.length p - String.length p)%nat
      with (String.length front + 0)%nat by lia.
    rewrite substring_skip. apply substring_0_length.
Qed.

End StrFacts.

(** X8: the names the locator looks at are exactly the names of the form
    [IOCL_<middle>.csv], and the text given to [strptime] for such a name is
    exactly its middle (which may be empty). *)
Theorem archive_name_middle :
  (∀ f, is_csv_name f = true ↔ ∃ middle, f = "IOCL_" +:+ middle +:+ ".csv")
  ∧ (∀ middle,
       timestamp_of ("IOCL_" +:+ middle +:+ ".csv") = Strptime.strptime middle).
Proof.
  split.
  - intros f. unfold is_csv_name.
    rewrite andb_true_iff, StrFacts.startswith_app, StrFacts.endswith_app. split.
    + intros [[rest ->] [front Hfront]].
      destruct front as [|a0 [|a1 [|a2 [|a3 [|a4 front]]]]];
        cbv [String.append] in Hfront; fold String.append in Hfront;
        try discriminate.
      injection Hfront as _ _ _ _ _ ->. by exists front.
    + intros [middle ->]. split; [by exists (middle +:+ ".csv")|].
      by exists ("IOCL_" +:+ middle).
  - intros middle. unfold timestamp_of, Str.slice. f_equal.
    change ("IOCL_" +:+ middle +:+ ".csv")
      with (String "I" (String "O" (String "C" (String "L" (String "_"
              (middle +:+ ".csv")))))).
    cbn [String.length String.substring].
    rewrite StrFacts.length_app. simpl String.length.
    replace (S (S (S (S (S (String.length middle + 4))))) - 4 - 5)%nat
      with (String.length middle) by lia.
    apply StrFacts.substring_0_app.
Qed.

(** ** The order of the listing *)

Lemma tuple_gt_antisym (a b : list nat) :
  Strptime.tuple_gt a b = false → Strptime.tuple_gt b a = false → a = b.
Proof.
  revert b. induction a as [|x a IH]; intros [|y b]; simpl; try done.
  destruct (Nat.eqb_spec x y) as [->|Hne].
  - rewrite Nat.eqb_refl. intros Hab Hba. f_equal. by apply IH.
  - destruct (Nat.eqb_spec y x) as [->|_]; [done|].
    intros Hyx%Nat.ltb_ge Hxy%Nat.ltb_ge. lia.
Qed.

Lemma datetime_gt_antisym (a b : Strptime.datetime) :
  Strptime.gt a b = false → Strptime.gt b a = false → a = b.
Proof.
  intros Hab Hba. pose proof (tuple_gt_antisym _ _ Hab Hba) as Heq.
  destruct a, b. unfold Strptime.fields in Heq. simpl in Heq.
  by injection Heq as -> -> -> -> -> ->.
Qed.

(** What the locator returns, when it returns a path. *)
Lemma get_latest_csv_greatest (listing : list string) (path : string) :
  get_latest_csv listing = Ok (Some path) →
  ∃ f t,
    path = path_join archive_folder f
    ∧ f ∈ listing ∧ is_csv_name f = true
    ∧ timestamp_of f = Ok t
    ∧ ∀ g u, g ∈ listing → is_csv_name g = true → timestamp_of g = Ok u →
             Strptime.gt u t = false.
Proof.
  unfold get_latest_csv.
  destruct (List.filter is_csv_name listing) as [|x l] eqn:Hl; [done|].
  intros (f & Hmax & [= <-])%result_bind_Ok.
  pose proof (py_max_spec _ _ datetime_gt_asym datetime_le_lt_trans _ _ Hmax)
    as (before & after & t & Hsplit & Ht & Hbefore & Hafter).
  rewrite <-Hl in Hsplit.
  assert (f ∈ List.filter is_csv_name listing) as [Hf Hcsv]%elem_of_csv_files.
  { rewrite Hsplit. apply elem_of_app. right. left. }
  exists f, t. repeat split; try done.
  intros g u Hg Hgcsv Hu.
  assert (g ∈ before ++ f :: after) as Hin
    by (rewrite <-Hsplit; by apply elem_of_csv_files).
  apply elem_of_app in Hin as [Hin|Hin].
  - apply datetime_gt_asym. by eapply Hbefore.
  - apply elem_of_cons in Hin as [->|Hin].
    + rewrite Ht in Hu. injection Hu as <-. apply TupleOrder.gt_irrefl.
    + by eapply Hafter.
Qed.

(** X9: when every archive name parses and no two archive names carry the
    same timestamp, the locator returns the same result for every order in
    which the folder is listed. *)
Theorem get_latest_csv_order_independent (listing listing' : list string) :
  listing ≡ₚ listing' →
  (∀ f, f ∈ listing → is_csv_name f = true → raises (timestamp_of f) = false) →
  (∀ f g t, f ∈ listing → g ∈ listing →
            is_csv_name f = true → is_csv_name g = true →
            timestamp_of f = Ok t → timestamp_of g = Ok t → f = g) →
  get_latest_csv listing = get_latest_csv listing'.
Proof.
  intros Hperm Hparse Hdistinct.
  assert (∀ f, f ∈ listing' ↔ f ∈ listing) as Hsame
    by (intros f; by rewrite Hperm).
  assert (∀ l, (∀ f, f ∈ l → f ∈ listing) →
               ∃ r, get_latest_csv l = Ok r) as Hok.
  { intros l Hl. apply raises_false.
    destruct (raises (get_latest_csv l)) eqn:Hr; [|done].
    apply get_latest_csv_raises_iff in Hr as (f & Hf & Hcsv & Hraise).
    rewrite (Hparse f (Hl f Hf) Hcsv) in Hraise. done. }
  destruct (Hok listing ltac:(done)) as [r Hr].
  destruct (Hok listing' ltac:(intros f; apply Hsame)) as [r' Hr'].
  rewrite Hr, Hr'. do 2 f_equal.
  destruct r as [path|], r' as [path'|]; try done.
  - apply get_latest_csv_greatest in Hr
      as (f & t & -> & Hf & Hcsv & Ht & Hmax).
    apply get_latest_csv_greatest in Hr'
      as (f' & t' & -> & Hf' & Hcsv' & Ht' & Hmax').
    apply Hsame in Hf'. do 2 f_equal.
    assert (t = t') as <-.
    { apply datetime_gt_antisym.
      - apply (Hmax' f t); [by apply Hsame | done | done].
      - by apply (Hmax f' t'). }
    by apply (Hdistinct f f' t).
  - apply get_latest_csv_greatest in Hr as (f & t & _ & Hf & Hcsv & _).
    pose proof (proj1 (get_latest_csv_None_iff listing') Hr' f
                  (proj2 (Hsame f) Hf)) as Hnone.
    congruence.
  - apply get_latest_csv_greatest in Hr' as (f & t & _ & Hf & Hcsv & _).
    pose proof (proj1 (get_latest_csv_None_iff listing) Hr f
                  (proj1 (Hsame f) Hf)) as Hnone.
    congruence.
Qed.

(** Two archive files, listed in either order. *)
Lemma get_latest_csv_order_independent_witness :
  get_latest_csv ["IOCL_2024_06_15_090000.csv"; "IOCL_2024_01_01_120000.csv"]
  = get_latest_csv ["IOCL_2024_01_01_120000.csv"; "IOCL_2024_06_15_090000.csv"].
Proof.
  apply (get_latest_csv_order_independent
           ["IOCL_2024_06_15_090000.csv"; "IOCL_2024_01_01_120000.csv"]
           ["IOCL_2024_01_01_120000.csv"; "IOCL_2024_06_15_090000.csv"]).
  - apply Permutation_swap.
  - intros f Hf _. apply list_elem_of_In in Hf. simpl in Hf.
    destruct Hf as [<-|[<-|[]]]; reflexivity.
  - intros f g t Hf Hg _ _. apply list_elem_of_In in Hf, Hg. simpl in Hf, Hg.
    destruct Hf as [<-|[<-|[]]], Hg as [<-|[<-|[]]]; try reflexivity;
      vm_compute; intros [= <-]; discriminate.
Defined.

(** ** Panels of one run *)

Lemma mean_all_missing (xs : list float) :
  (∀ x, x ∈ xs → Num.isna x = true) → Num.mean xs = PrimFloat.nan.
Proof.
  intros Hall. unfold Num.mean.
  assert (Num.dropna xs = []) as ->; [|done].
  clear -Hall.
  unfold Num.dropna. induction xs as [|x xs IH]; simpl; [done|].
  rewrite (Hall x) by left. simpl. apply IH.
  intros y Hy. apply Hall. by right.
Qed.

Lemma elem_of_dashboard_events (env : Env) (rows : DataFrame) (e : event) :
  e ∈ dashboard_events env rows
  ↔ e ∈ sidebar_events env rows
    ∨ e ∈ statistics_events (shown_rows env rows)
    ∨ e ∈ chart_events (shown_rows env rows)
    ∨ e ∈ map_events (shown_rows env rows)
    ∨ e ∈ table_events (shown_rows env rows).
Proof. unfold dashboard_events. by rewrite !elem_of_app. Qed.

(** X10: [dashboard] ends normally also when a price column of the rows
    shown has no value (for instance when there is no row); the average of
    such a column is shown as [nan] after the currency sign. *)
Theorem all_missing_prices_show_nan
    (env : Env) (h : gmap loc DataFrame) (df : loc) (rows : DataFrame) :
  h !! df = Some rows →
  value_of (dashboard df env h) = Ok tt
  ∧ ((∀ r, r ∈ shown_rows env rows → Num.isna (Petrol_Price r) = true) →
     EvMetric 2 "Average Petrol Price" (StrValue (rupee +:+ "nan"))
     ∈ drawn (dashboard df env h))
  ∧ ((∀ r, r ∈ shown_rows env rows → Num.isna (Diesel_Price r) = true) →
     EvMetric 3 "Average Diesel Price" (StrValue (rupee +:+ "nan"))
     ∈ drawn (dashboard df env h)).
Proof.
  intros Hdf. destruct (dashboard_run df rows env h Hdf) as (h' & -> & _).
  unfold value_of, drawn. simpl. split; [done|].
  split; intros Hall; apply elem_of_dashboard_events; right; left;
    unfold statistics_events.
  - rewrite (mean_all_missing (Petrol_Price <$> shown_rows env rows)).
    + do 2 right. left.
    + intros x (r & -> & Hr)%list_elem_of_fmap. by apply Hall.
  - rewrite (mean_all_missing (Diesel_Price <$> shown_rows env rows)).
    + do 3 right. left.
    + intros x (r & -> & Hr)%list_elem_of_fmap. by apply Hall.
Qed.

(** A frame without rows, as read from a file that has only its header. *)
Lemma all_missing_prices_show_nan_witness :
  value_of (dashboard 0%nat Demo.no_file (Demo.one_frame [])) = Ok tt
  ∧ EvMetric 2 "Average Petrol Price" (StrValue (rupee +:+ "nan"))
    ∈ drawn (dashboard 0%nat Demo.no_file (Demo.one_frame []))
  ∧ EvMetric 3 "Average Diesel Price" (StrValue (rupee +:+ "nan"))
    ∈ drawn (dashboard 0%nat Demo.no_file (Demo.one_frame [])).
Proof.
  destruct (all_missing_prices_show_nan Demo.no_file (Demo.one_frame [])
              0%nat [] ltac:(vm_compute; reflexivity)) as (Hok & Hp & Hd).
  split; [exact Hok|]. split.
  - apply Hp. intros r Hr. vm_compute in Hr. by apply elem_of_nil in Hr.
  - apply Hd. intros r Hr. vm_compute in Hr. by apply elem_of_nil in Hr.
Defined.

(** X11: the panels of one run agree: the number of stations shown in the
    statistics is the number of rows of the table, both count the rows
    shown, and a map that is drawn plots as many points as rows shown have
    both coordinates, at least one and never more than that number. *)
Theorem panels_agree
    (env : Env) (h : gmap loc DataFrame) (df : loc) (rows : DataFrame) :
  h !! df = Some rows →
  EvMetric 1 "Total Petrol Bunks" (IntValue (length (shown_rows env rows)))
  ∈ drawn (dashboard df env h)
  ∧ (∃ table, EvDataframe table ∈ drawn (dashboard df env h)
              ∧ length table = length (shown_rows env rows))
  ∧ ∀ deck, EvPydeckChart deck ∈ drawn (dashboard df env h) →
      length (plotted_points deck)
      = length (List.filter has_coordinates (shown_rows env rows))
      ∧ (0 < length (plotted_points deck) ≤ length (shown_rows env rows))%nat.
Proof.
  intros Hdf. destruct (dashboard_run df rows env h Hdf) as (h' & -> & _).
  unfold drawn. simpl. split; [|split].
  - apply elem_of_dashboard_events. right. left.
    unfold statistics_events. right. left.
  - exists (table_view (shown_rows env rows)). split.
    + apply elem_of_dashboard_events. do 4 right.
      unfold table_events. right. left.
    + unfold table_view. apply length_fmap.
  - intros deck Hin. unfold dashboard_events, map_events, map_warning, map_result in Hin.
    fold (dropna_lat_lon (shown_rows env rows)).
    destruct (dropna_lat_lon (shown_rows env rows)) as [|r0 map_rows] eqn:Hmap;
      [not_drawn Hin|].
    simpl in Hin.
    repeat (apply elem_of_cons in Hin as [Hin|Hin]; [try discriminate|]);
      [|by apply elem_of_nil in Hin].
    injection Hin as ->. rewrite plotted_points_build_deck, length_fmap.
    split; [done|]. split; [simpl; lia|].
    rewrite <-Hmap. unfold dropna_lat_lon. apply List.filter_length_le.
Qed.

Lemma panels_agree_witness :
  EvMetric 1 "Total Petrol Bunks"
    (IntValue (length (shown_rows Demo.no_file [Demo.located; Demo.unlocated])))
  ∈ drawn (dashboard 0%nat Demo.no_file
             (Demo.one_frame [Demo.located; Demo.unlocated]))
  ∧ (∃ table,
       EvDataframe table
       ∈ drawn (dashboard 0%nat Demo.no_file
                  (Demo.one_frame [Demo.located; Demo.unlocated]))
       ∧ length table
         = length (shown_rows Demo.no_file [Demo.located; Demo.unlocated]))
  ∧ ∀ deck,
      EvPydeckChart deck
      ∈ drawn (dashboard 0%nat Demo.no_file
                 (Demo.one_frame [Demo.located; Demo.unlocated])) →
      length (plotted_points deck)
      = length (List.filter has_coordinates
                  (shown_rows Demo.no_file [Demo.located; Demo.unlocated]))
      ∧ (0 < length (plotted_points deck)
         ≤ length (shown_rows Demo.no_file [Demo.located; Demo.unlocated]))%nat.
Proof.
  apply (panels_agree Demo.no_file
           (Demo.one_frame [Demo.located; Demo.unlocated]) 0%nat
           [Demo.located; Demo.unlocated]).
  vm_compute. reflexivity.
Defined.

(** ** From the file to the map *)

(** X12: a record whose latitude or longitude cell holds a text that is not
    a number is loaded with that coordinate missing, and [dropna] leaves it
    out of the rows the map is built from. *)
Theorem unparsable_coordinates_off_the_map
    (to_double : string → option float) (raws : list Raw.Row)
    (r : Raw.Row) (s : string) :
  Raw.Latitude r = Text s ∨ Raw.Longitude r = Text s →
  to_double s = None →
  has_coordinates (convert_row to_double r) = false
  ∧ convert_row to_double r ∉ dropna_lat_lon (convert_row to_double <$> raws).
Proof.
  intros Hcell Hnone.
  assert (has_coordinates (convert_row to_double r) = false) as Hno.
  { unfold has_coordinates. simpl.
    destruct Hcell as [-> | ->]; simpl; rewrite Hnone; simpl;
      [done | apply andb_false_r]. }
  split; [done|]. intros Hin.
  unfold dropna_lat_lon in Hin.
  apply list_elem_of_In, List.filter_In in Hin as [_ Hyes]. congruence.
Qed.

(** The second record of the scenario: its latitude is [Not Available]. *)
Lemma unparsable_coordinates_off_the_map_witness :
  has_coordinates
    (convert_row short_decimal
       (Demo.raw_station (Text "Not Available") (Number 85)
          (Text "Not Available") (Number 80.125))) = false
  ∧ convert_row short_decimal
      (Demo.raw_station (Text "Not Available") (Number 85)
         (Text "Not Available") (Number 80.125))
    ∉ dropna_lat_lon
        (convert_row short_decimal
         <$> csv_rows Demo.two_records "archive/IOCL_2024_06_15_090000.csv").
Proof.
  apply (unparsable_coordinates_off_the_map short_decimal
           (csv_rows Demo.two_records "archive/IOCL_2024_06_15_090000.csv")
           (Demo.raw_station (Text "Not Available") (Number 85)
              (Text "Not Available") (Number 80.125))
           "Not Available").
  - left. reflexivity.
  - vm_compute. reflexivity.
Defined.

(** * The region columns with cells of any kind *)

Module CellFacts.

Lemma filter_fmap {A B} (f : A → B) (p : B → bool) (xs : list A) :
  List.filter p (f <$> xs) = f <$> List.filter (λ x, p (f x)) xs.
Proof.
  induction xs as [|x xs IH]; [done|].
  rewrite fmap_cons. simpl. destruct (p (f x)); by rewrite IH.
Qed.

Lemma eq_text_r (a : cell) (s : string) :
  Cells.eq a (Text s) = true ↔ a = Text s.
Proof.
  destruct a as [t|x]; simpl; [|done].
  rewrite String.eqb_eq. split; [by intros -> | by intros [= ->]].
Qed.

Lemma eq_text_l (s : string) (b : cell) :
  Cells.eq (Text s) b = true ↔ Text s = b.
Proof.
  destruct b as [t|x]; simpl; [|done].
  rewrite String.eqb_eq. split; [by intros -> | by intros [= ->]].
Qed.

Lemma unique_text (ss : list string) :
  Cells.unique (Text <$> ss) = Text <$> unique ss.
Proof.
  induction ss as [|s ss IH]; [done|].
  rewrite fmap_cons. simpl. rewrite IH, filter_fmap. done.
Qed.

Lemma insert_sorted_text (x : string) (ss : list string) :
  Cells.insert_sorted (Text x) (Text <$> ss) = Ok (Text <$> insert_sorted x ss).
Proof.
  induction ss as [|s ss IH]; [done|].
  rewrite fmap_cons. simpl. destruct (Str.lt s x); [|done].
  by rewrite IH.
Qed.

Lemma sorted_text (ss : list string) :
  Cells.sorted (Text <$> ss) = Ok (Text <$> sorted ss).
Proof.
  induction ss as [|s ss IH]; [done|].
  rewrite fmap_cons. simpl. fold (Cells.sorted (Text <$> ss)).
  rewrite IH. simpl. apply insert_sorted_text.
Qed.

(** A column of texts is the column of the texts of its cells. *)
Lemma text_column (col : Cells.Region → cell) (df : list Cells.Region) :
  (∀ r, r ∈ df → Cells.is_text (col r) = true) →
  col <$> df = Text <$> ((λ r, Cells.text_of (col r)) <$> df).
Proof.
  induction df as [|r df IH]; intros Htext; [done|].
  rewrite !fmap_cons, <-IH.
  - f_equal. specialize (Htext r (list_elem_of_here _ _)).
    by destruct (col r).
  - intros r' Hr'. apply Htext. by right.
Qed.

Lemma sorted_unique_text_column (col : Cells.Region → cell) (df : list Cells.Region) :
  (∀ r, r ∈ df → Cells.is_text (col r) = true) →
  Cells.sorted (Cells.unique (col <$> df))
  = Ok (Text <$> sorted (unique ((λ r, Cells.text_of (col r)) <$> df))).
Proof.
  intros Htext. by rewrite (text_column col df Htext), unique_text, sorted_text.
Qed.

Lemma getitem_cells_mask (col : Cells.Region → cell) (value : cell)
    (df : list Cells.Region) :
  Cells.getitem_mask df (Cells.eq_mask col value df)
  = List.filter (λ r, Cells.eq (col r) value) df.
Proof.
  induction df as [|r df IH]; [done|].
  unfold Cells.eq_mask in *. rewrite fmap_cons. simpl. by rewrite IH.
Qed.

Lemma elem_of_apply_cells_filter (col : Cells.Region → cell) (selection : cell)
    (df : list Cells.Region) (r : Cells.Region) :
  r ∈ Cells.apply_filter col selection df
  ↔ r ∈ df ∧ (selection = Cells.all_sentinel ∨ Cells.eq (col r) selection = true).
Proof.
  unfold Cells.apply_filter. rewrite getitem_cells_mask.
  destruct (Cells.eq selection Cells.all_sentinel) eqn:Hall; simpl.
  - apply eq_text_r in Hall. split; [intros Hr; split; [done | by left] | by intros [? _]].
  - rewrite list_elem_of_In, List.filter_In, <-list_elem_of_In. split.
    + intros [Hr Heq]. split; [done | by right].
    + intros [Hr [Hsel|Heq]]; [|done].
      rewrite Hsel in Hall. vm_compute in Hall. done.
Qed.

Lemma text_columns_spec (df : list Cells.Region) :
  Cells.text_columns df = true
  ↔ ∀ r, r ∈ df → Cells.is_text (Cells.State r) = true
                  ∧ Cells.is_text (Cells.District r) = true.
Proof.
  unfold Cells.text_columns. rewrite List.forallb_forall.
  setoid_rewrite <-list_elem_of_In. setoid_rewrite andb_true_iff. done.
Qed.

(** The district options as one expression. *)
Lemma district_options_filter (df : list Cells.Region) (selected_state : cell) :
  Cells.district_options df selected_state
  = result_bind
      (Cells.sorted (Cells.unique
         (Cells.District <$> Cells.apply_filter Cells.State selected_state df)))
      (λ districts, Ok (Cells.all_sentinel :: districts)).
Proof.
  unfold Cells.district_options, Cells.apply_filter.
  by destruct (negb (Cells.eq selected_state Cells.all_sentinel)).
Qed.

Lemma district_options_text (df : list Cells.Region) (selected_state : cell) :
  Cells.text_columns df = true →
  Cells.district_options df selected_state
  = Ok (Cells.all_sentinel
        :: (Text <$> sorted (unique
              ((λ r, Cells.text_of (Cells.District r))
               <$> Cells.apply_filter Cells.State selected_state df)))).
Proof.
  intros Htext. pose proof (proj1 (text_columns_spec df) Htext) as Hcells.
  rewrite district_options_filter, sorted_unique_text_column; [done|].
  intros r [Hr _]%elem_of_apply_cells_filter. by apply Hcells.
Qed.

Lemma state_options_text (df : list Cells.Region) :
  (∀ r, r ∈ df → Cells.is_text (Cells.State r) = true) →
  Cells.state_options df
  = Ok (Cells.all_sentinel
        :: (Text <$> sorted (unique
              ((λ r, Cells.text_of (Cells.State r)) <$> df)))).
Proof.
  intros Htext. unfold Cells.state_options.
  by rewrite sorted_unique_text_column.
Qed.

Lemma text_of_eq (c : cell) (s : string) :
  Cells.is_text c = true → Cells.text_of c = s ↔ c = Text s.
Proof.
  destruct c as [t|x]; simpl; [|done]. intros _.
  split; [by intros -> | by intros [= ->]].
Qed.

End CellFacts.

(** On a frame with text columns the functions on cells are the functions
    of the filter layer. *)
Lemma region_of_row_text_columns (df : DataFrame) :
  Cells.text_columns (region_of_row <$> df) = true.
Proof.
  apply CellFacts.text_columns_spec.
  intros r (r' & -> & _)%list_elem_of_fmap. done.
Qed.

Lemma Cells_state_options_of_rows (df : DataFrame) :
  Cells.state_options (region_of_row <$> df) = Ok (Text <$> state_options df).
Proof.
  rewrite CellFacts.state_options_text.
  - unfold state_options. simpl. by rewrite <-list_fmap_compose.
  - intros r Hr.
    by apply (proj1 (CellFacts.text_columns_spec _) (region_of_row_text_columns df)).
Qed.

Lemma Cells_apply_filter_of_rows (selection : string) (df : DataFrame) :
  Cells.apply_filter Cells.State (Text selection) (region_of_row <$> df)
  = region_of_row <$> apply_filter State selection df
  ∧ Cells.apply_filter Cells.District (Text selection) (region_of_row <$> df)
    = region_of_row <$> apply_filter District selection df.
Proof.
  unfold Cells.apply_filter, apply_filter.
  rewrite !CellFacts.getitem_cells_mask, !getitem_eq_mask.
  unfold Cells.all_sentinel, all_sentinel. cbn [Cells.eq].
  destruct (String.eqb selection "All"); cbn [negb]; [done|].
  by rewrite !CellFacts.filter_fmap.
Qed.

Lemma Cells_district_options_of_rows (df : DataFrame) (selected_state : string) :
  Cells.district_options (region_of_row <$> df) (Text selected_state)
  = Ok (Text <$> district_options df selected_state).
Proof.
  rewrite CellFacts.district_options_text by apply region_of_row_text_columns.
  rewrite (proj1 (Cells_apply_filter_of_rows selected_state df)).
  rewrite <-list_fmap_compose.
  unfold district_options, apply_filter.
  by destruct (negb (String.eqb selected_state all_sentinel)).
Qed.

Example Cells_sorted_examples :
  Cells.sorted [Number 10; Number 9] = Ok [Number 9; Number 10]
  ∧ Cells.sorted [Text "10"; Text "9"] = Ok [Text "10"; Text "9"]
  ∧ Cells.sorted [Number PrimFloat.nan] = Ok [Number PrimFloat.nan]
  ∧ raises (Cells.sorted [Text "Tamil Nadu"; Number PrimFloat.nan]) = true.
Proof. repeat split. Qed.

Module CellOptions.

Lemma cells_selected_elem_of (options : list cell) (index : nat) :
  options ≠ [] → Cells.selected options index ∈ options.
Proof.
  intros Hne. unfold Cells.selected.
  destruct (options !! index) as [c|] eqn:Hc; simpl.
  - by apply list_elem_of_lookup_2 in Hc.
  - destruct options as [|c options]; [done|]. simpl. by left.
Qed.

Lemma text_cell (c : cell) :
  Cells.is_text c = true → c = Text (Cells.text_of c).
Proof. by destruct c. Qed.

Lemma eq_refl_text (c : cell) :
  Cells.is_text c = true → Cells.eq c c = true.
Proof. destruct c as [s|x]; [|done]. intros _. apply String.eqb_refl. Qed.

(** What the state select box offers when the [State] column is text. *)
Lemma elem_of_cells_state_options (df : list Cells.Region) :
  (∀ r, r ∈ df → Cells.is_text (Cells.State r) = true) →
  ∃ options,
    Cells.state_options df = Ok options
    ∧ ∀ c, c ∈ options
           ↔ c = Cells.all_sentinel ∨ ∃ r, r ∈ df ∧ Cells.State r = c.
Proof.
  intros Htext. eexists. split; [by apply CellFacts.state_options_text|].
  intros c. rewrite elem_of_cons, list_elem_of_fmap.
  destruct (sorted_unique_spec ((λ r, Cells.text_of (Cells.State r)) <$> df))
    as [_ Helem].
  setoid_rewrite Helem. setoid_rewrite list_elem_of_fmap. split.
  - intros [->|(s & -> & r & -> & Hr)]; [by left|]. right. exists r.
    split; [done|]. by rewrite <-text_cell by by apply Htext.
  - intros [->|(r & Hr & <-)]; [by left|]. right.
    exists (Cells.text_of (Cells.State r)).
    split; [by apply text_cell, Htext|]. by exists r.
Qed.

(** What the district select box offers when both columns are text. *)
Lemma elem_of_cells_district_options (df : list Cells.Region) (selected_state : cell) :
  Cells.text_columns df = true →
  ∃ options,
    Cells.district_options df selected_state = Ok options
    ∧ ∀ c, c ∈ options
           ↔ c = Cells.all_sentinel
             ∨ ∃ r, r ∈ df
                    ∧ (selected_state = Cells.all_sentinel
                       ∨ Cells.State r = selected_state)
                    ∧ Cells.District r = c.
Proof.
  intros Htext. eexists. split; [by apply CellFacts.district_options_text|].
  pose proof (proj1 (CellFacts.text_columns_spec df) Htext) as Hcells.
  intros c. rewrite elem_of_cons, list_elem_of_fmap.
  destruct (sorted_unique_spec
              ((λ r, Cells.text_of (Cells.District r))
               <$> Cells.apply_filter Cells.State selected_state df))
    as [_ Helem].
  setoid_rewrite Helem. setoid_rewrite list_elem_of_fmap.
  setoid_rewrite CellFacts.elem_of_apply_cells_filter. split.
  - intros [->|(s & -> & r & -> & Hr & Hsel)]; [by left|]. right. exists r.
    destruct (Hcells r Hr) as [Hstate Hdistrict].
    split; [done|]. split; [|by rewrite <-text_cell].
    destruct Hsel as [Hsel|Hsel]; [by left|right].
    rewrite (text_cell _ Hstate) in Hsel |- *.
    by apply CellFacts.eq_text_l in Hsel.
  - intros [->|(r & Hr & Hsel & <-)]; [by left|]. right.
    destruct (Hcells r Hr) as [Hstate Hdistrict].
    exists (Cells.text_of (Cells.District r)).
    split; [by apply text_cell|]. exists r. split; [done|]. split; [done|].
    destruct Hsel as [Hsel|<-]; [by left|right]. by apply eq_refl_text.
Qed.

End CellOptions.

(** ** The district options *)

(** C3, as stated, fails: when a district cell of the file is empty the
    column holds a missing value next to texts, [sorted] compares the two and
    raises [TypeError], and no option list is built. *)
Lemma district_options_missing_cell_raises :
  Cells.district_options Demo.missing_district (Text "All")
  = Raise (TypeError "'<' not supported between instances of 'float' and 'str'")
  ∧ Cells.district_options Demo.missing_district (Text "Tamil Nadu")
    = Raise (TypeError "'<' not supported between instances of 'float' and 'str'").
Proof. split; reflexivity. Qed.

(** C3 (amended): when every state and district cell of the loaded records
    is a text, the district options are the sentinel [All] followed by the
    district values of the records whose state is the selected one (of all
    records when the selection is [All]), each value once, in strictly
    increasing lexicographic order. *)
Theorem district_options_of_text_columns
    (df : list Cells.Region) (selected_state : cell) :
  Cells.text_columns df = true →
  ∃ districts,
    Cells.district_options df selected_state
    = Ok (Cells.all_sentinel :: (Text <$> districts))
    ∧ StronglySorted (λ a b, Str.lt a b = true) districts
    ∧ ∀ d, d ∈ districts
           ↔ ∃ r, r ∈ df
                  ∧ (selected_state = Cells.all_sentinel
                     ∨ Cells.State r = selected_state)
                  ∧ Cells.District r = Text d.
Proof.
  intros Htext.
  exists (sorted (unique ((λ r, Cells.text_of (Cells.District r))
                          <$> Cells.apply_filter Cells.State selected_state df))).
  split; [by apply CellFacts.district_options_text|].
  pose proof (proj1 (CellFacts.text_columns_spec df) Htext) as Hcells.
  destruct (sorted_unique_spec
              ((λ r, Cells.text_of (Cells.District r))
               <$> Cells.apply_filter Cells.State selected_state df))
    as [Hsorted Helem].
  split; [done|]. intros d. rewrite Helem, list_elem_of_fmap.
  setoid_rewrite CellFacts.elem_of_apply_cells_filter. split.
  - intros (r & -> & Hr & Hsel). exists r.
    destruct (Hcells r Hr) as [Hstate Hdistrict].
    split; [done|]. split; [|by apply CellOptions.text_cell].
    destruct Hsel as [Hsel|Hsel]; [by left|right].
    rewrite (CellOptions.text_cell _ Hstate) in Hsel |- *.
    by apply CellFacts.eq_text_l in Hsel.
  - intros (r & Hr & Hsel & Hd). exists r.
    destruct (Hcells r Hr) as [Hstate Hdistrict].
    split; [by rewrite Hd|]. split; [done|].
    destruct Hsel as [Hsel|<-]; [by left|right].
    by apply CellOptions.eq_refl_text.
Qed.

(** Four records of two states, the state Tamil Nadu selected. *)
Lemma district_options_of_text_columns_witness :
  ∃ districts,
    Cells.district_options Demo.two_districts (Text "Tamil Nadu")
    = Ok (Cells.all_sentinel :: (Text <$> districts))
    ∧ StronglySorted (λ a b, Str.lt a b = true) districts
    ∧ ∀ d, d ∈ districts
           ↔ ∃ r, r ∈ Demo.two_districts
                  ∧ (Text "Tamil Nadu" = Cells.all_sentinel
                     ∨ Cells.State r = Text "Tamil Nadu")
                  ∧ Cells.District r = Text d.
Proof.
  apply (district_options_of_text_columns Demo.two_districts (Text "Tamil Nadu")).
  reflexivity.
Defined.

Example district_options_two_districts :
  Cells.district_options Demo.two_districts (Text "Tamil Nadu")
  = Ok [Text "All"; Text "Chennai"; Text "Salem"]
  ∧ Cells.district_options Demo.two_districts (Text "All")
    = Ok [Text "All"; Text "Chennai"; Text "Kochi"; Text "Salem"]
  ∧ Cells.state_options Demo.two_districts
    = Ok [Text "All"; Text "Kerala"; Text "Tamil Nadu"].
Proof. repeat split. Qed.

(** ** The state options and the cascade *)

(** X3: when every state cell of the loaded records is a text, the state
    options are the sentinel [All] followed by the states of the records,
    each once, in strictly increasing lexicographic order. *)
Theorem state_options_of_text_column (df : list Cells.Region) :
  Cells.text_states df = true →
  ∃ states,
    Cells.state_options df = Ok (Cells.all_sentinel :: (Text <$> states))
    ∧ StronglySorted (λ a b, Str.lt a b = true) states
    ∧ ∀ s, s ∈ states ↔ ∃ r, r ∈ df ∧ Cells.State r = Text s.
Proof.
  intros Htext.
  assert (∀ r, r ∈ df → Cells.is_text (Cells.State r) = true) as Hcells.
  { intros r Hr%list_elem_of_In.
    exact (proj1 (List.forallb_forall _ _) Htext r Hr). }
  exists (sorted (unique ((λ r, Cells.text_of (Cells.State r)) <$> df))).
  split; [by apply CellFacts.state_options_text|].
  destruct (sorted_unique_spec ((λ r, Cells.text_of (Cells.State r)) <$> df))
    as [Hsorted Helem].
  split; [done|]. intros s. rewrite Helem, list_elem_of_fmap. split.
  - intros (r & -> & Hr). exists r. split; [done|].
    by apply CellOptions.text_cell, Hcells.
  - intros (r & Hr & Hs). exists r. split; [by rewrite Hs | done].
Qed.

Lemma state_options_of_text_column_witness :
  ∃ states,
    Cells.state_options Demo.two_districts
    = Ok (Cells.all_sentinel :: (Text <$> states))
    ∧ StronglySorted (λ a b, Str.lt a b = true) states
    ∧ ∀ s, s ∈ states ↔ ∃ r, r ∈ Demo.two_districts ∧ Cells.State r = Text s.
Proof.
  apply (state_options_of_text_column Demo.two_districts). reflexivity.
Defined.

(** X4: when every state and district cell is a text, every district offered
    under a selected state is also offered when the state selection is
    [All], and it is the district of a loaded record of that state (or the
    sentinel). *)
Theorem district_options_cascade_text
    (df : list Cells.Region) (selected_state : cell) :
  Cells.text_columns df = true →
  ∃ options all_options,
    Cells.district_options df selected_state = Ok options
    ∧ Cells.district_options df Cells.all_sentinel = Ok all_options
    ∧ ∀ d, d ∈ options →
        d ∈ all_options
        ∧ (d = Cells.all_sentinel
           ∨ ∃ r, r ∈ df
                  ∧ (selected_state = Cells.all_sentinel
                     ∨ Cells.State r = selected_state)
                  ∧ Cells.District r = d).
Proof.
  intros Htext.
  destruct (CellOptions.elem_of_cells_district_options df selected_state Htext)
    as (options & Hoptions & Helem).
  destruct (CellOptions.elem_of_cells_district_options df Cells.all_sentinel Htext)
    as (all_options & Hall & Helem_all).
  exists options, all_options. split; [done|]. split; [done|].
  intros d Hd%Helem. split; [|done]. apply Helem_all.
  destruct Hd as [->|(r & Hr & _ & <-)]; [by left|].
  right. exists r. split; [done|]. split; [by left | done].
Qed.

Lemma district_options_cascade_text_witness :
  ∃ options all_options,
    Cells.district_options Demo.two_districts (Text "Kerala") = Ok options
    ∧ Cells.district_options Demo.two_districts Cells.all_sentinel = Ok all_options
    ∧ ∀ d, d ∈ options →
        d ∈ all_options
        ∧ (d = Cells.all_sentinel
           ∨ ∃ r, r ∈ Demo.two_districts
                  ∧ (Text "Kerala" = Cells.all_sentinel
                     ∨ Cells.State r = Text "Kerala")
                  ∧ Cells.District r = d).
Proof.
  apply (district_options_cascade_text Demo.two_districts (Text "Kerala")).
  reflexivity.
Defined.

(** ** The rows shown *)

Lemma Cells_shown_rows_eq (state_index district_index : nat)
    (df : list Cells.Region) (states districts : list cell) :
  Cells.state_options df = Ok states →
  Cells.district_options df (Cells.selected states state_index) = Ok districts →
  Cells.shown_rows state_index district_index df
  = Ok (Cells.apply_filter Cells.District
          (Cells.selected districts district_index)
          (Cells.apply_filter Cells.State
             (Cells.selected states state_index) df)).
Proof.
  intros Hstates Hdistricts. unfold Cells.shown_rows.
  rewrite Hstates. simpl. by rewrite Hdistricts.
Qed.

Lemma Cells_options_nonempty (options : list cell) :
  Cells.all_sentinel ∈ options → options ≠ [].
Proof. intros Hall ->. by apply elem_of_nil in Hall. Qed.

(** X6: when every state and district cell is a text, whatever the user
    picks in the two select boxes, the rows shown are not empty when the
    loaded frame is not: the options offered are values that occur, the
    districts among the records of the selected state. *)
Theorem shown_rows_nonempty_text
    (state_index district_index : nat) (df : list Cells.Region) :
  Cells.text_columns df = true →
  df ≠ [] →
  ∃ shown,
    Cells.shown_rows state_index district_index df = Ok shown ∧ shown ≠ [].
Proof.
  intros Htext Hdf.
  pose proof (proj1 (CellFacts.text_columns_spec df) Htext) as Hcells.
  destruct (CellOptions.elem_of_cells_state_options df) as (states & Hstates & Hs).
  { intros r Hr. by apply Hcells. }
  set (selected_state := Cells.selected states state_index).
  destruct (CellOptions.elem_of_cells_district_options df selected_state Htext)
    as (districts & Hdistricts & Hd).
  set (selected_district := Cells.selected districts district_index).
  eexists. split; [by apply Cells_shown_rows_eq|].
  fold selected_state selected_district.
  assert (selected_state ∈ states) as Hstate.
  { apply CellOptions.cells_selected_elem_of. apply (Cells_options_nonempty states).
    apply Hs. by left. }
  assert (selected_district ∈ districts) as Hdistrict.
  { apply CellOptions.cells_selected_elem_of. apply (Cells_options_nonempty districts).
    apply Hd. by left. }
  apply Hs in Hstate. apply Hd in Hdistrict.
  assert (∃ r, r ∈ Cells.apply_filter Cells.District selected_district
                     (Cells.apply_filter Cells.State selected_state df))
    as [r Hr].
  { setoid_rewrite CellFacts.elem_of_apply_cells_filter.
    setoid_rewrite CellFacts.elem_of_apply_cells_filter.
    destruct Hdistrict as [Hdistrict|(r & Hr & Hsel & Hdistrict)].
    - destruct Hstate as [Hstate|(r & Hr & Hstate)].
      + destruct df as [|r df]; [done|]. exists r.
        split; [|by left]. split; [by left | by left].
      + exists r. split; [|by left]. split; [done|]. right.
        rewrite Hstate. apply CellOptions.eq_refl_text.
        rewrite <-Hstate. by apply Hcells.
    - exists r. split.
      + split; [done|]. destruct Hsel as [Hsel|Hsel]; [by left|right].
        rewrite Hsel. apply CellOptions.eq_refl_text.
        rewrite <-Hsel. by apply Hcells.
      + right. rewrite Hdistrict. apply CellOptions.eq_refl_text.
        rewrite <-Hdistrict. by apply Hcells. }
  intros Hnil. rewrite Hnil in Hr. by apply elem_of_nil in Hr.
Qed.

(** The user picks the state Tamil Nadu and then the district Chennai. *)
Lemma shown_rows_nonempty_text_witness :
  ∃ shown,
    Cells.shown_rows 2 1 Demo.two_districts = Ok shown ∧ shown ≠ [].
Proof.
  apply (shown_rows_nonempty_text 2 1 Demo.two_districts);
    [reflexivity | discriminate].
Defined.

Example shown_rows_two_districts :
  Cells.shown_rows 2 1 Demo.two_districts
  = Ok [Cells.mk (Text "Tamil Nadu") (Text "Chennai")]
  ∧ Cells.shown_rows 2 2 Demo.two_districts
    = Ok [Cells.mk (Text "Tamil Nadu") (Text "Salem");
          Cells.mk (Text "Tamil Nadu") (Text "Salem")].
Proof. split; reflexivity. Qed.

(** ** Columns that are not text *)

Module CellKinds.

Lemma lt_ok (a b : cell) (smaller : bool) :
  Cells.lt a b = Ok smaller → Cells.is_text a = Cells.is_text b.
Proof. by destruct a, b. Qed.

Lemma lt_raise (a b : cell) (e : exn) :
  Cells.lt a b = Raise e → ∃ msg, e = TypeError msg.
Proof. destruct a, b; intros [= <-] || done; by eexists. Qed.

Lemma same_kind (a b : cell) :
  Cells.same a b = true → Cells.is_text a = Cells.is_text b.
Proof. by destruct a, b. Qed.

(** An insertion that returns has compared the new cell with the first one
    of the list. *)
Lemma insert_sorted_ok (x : cell) (ys zs : list cell) :
  Cells.insert_sorted x ys = Ok zs →
  (∀ a, a ∈ zs ↔ a = x ∨ a ∈ ys)
  ∧ (∀ y, head ys = Some y → Cells.is_text y = Cells.is_text x).
Proof.
  revert zs. induction ys as [|y ys IH]; intros zs; simpl.
  - intros [= <-]. split; [|done]. intros a.
    rewrite list_elem_of_singleton, elem_of_nil. tauto.
  - destruct (Cells.lt y x) as [smaller|e] eqn:Hlt; simpl; [|done].
    apply lt_ok in Hlt. intros Hzs. split.
    + destruct smaller.
      * destruct (Cells.insert_sorted x ys) as [r|e] eqn:Hr; simpl in Hzs; [|done].
        injection Hzs as <-. destruct (IH r eq_refl) as [Helem _].
        intros a. rewrite !elem_of_cons, Helem. tauto.
      * injection Hzs as <-. intros a. rewrite !elem_of_cons. tauto.
    + by intros ? [= <-].
Qed.

Lemma insert_sorted_raise (x : cell) (ys : list cell) (e : exn) :
  Cells.insert_sorted x ys = Raise e → ∃ msg, e = TypeError msg.
Proof.
  induction ys as [|y ys IH]; simpl; [done|].
  destruct (Cells.lt y x) as [smaller|e'] eqn:Hlt; simpl.
  - destruct smaller; [|done].
    destruct (Cells.insert_sorted x ys) as [r|e'']; simpl; [done|].
    intros [= <-]. by apply IH.
  - intros [= <-]. by apply lt_raise in Hlt.
Qed.

Lemma sorted_cons (x : cell) (xs : list cell) :
  Cells.sorted (x :: xs) = result_bind (Cells.sorted xs) (Cells.insert_sorted x).
Proof. done. Qed.

(** A sort that returns has sorted cells of one kind. *)
Lemma sorted_ok (xs ys : list cell) :
  Cells.sorted xs = Ok ys →
  (∀ a, a ∈ ys ↔ a ∈ xs)
  ∧ (∀ a b, a ∈ xs → b ∈ xs → Cells.is_text a = Cells.is_text b).
Proof.
  revert ys. induction xs as [|x xs IH]; intros ys.
  - intros [= <-]. split; [done|]. by intros a b Ha%elem_of_nil.
  - rewrite sorted_cons.
    destruct (Cells.sorted xs) as [ys'|e] eqn:Hxs; simpl; [|done].
    intros Hins. destruct (IH ys' eq_refl) as [Helem Hkind].
    destruct (insert_sorted_ok x ys' ys Hins) as [Helem' Hhead].
    split.
    + intros a. rewrite Helem', elem_of_cons, Helem. done.
    + assert (∀ a, a ∈ xs → Cells.is_text a = Cells.is_text x) as Hx.
      { intros a Ha. destruct ys' as [|y ys'].
        - apply Helem in Ha. by apply elem_of_nil in Ha.
        - rewrite <-(Hhead y eq_refl). apply Hkind; [done|].
          apply Helem. by left. }
      intros a b [->|Ha]%elem_of_cons [->|Hb]%elem_of_cons.
      * done.
      * symmetry. by apply Hx.
      * by apply Hx.
      * by apply Hkind.
Qed.

Lemma sorted_raise (xs : list cell) (e : exn) :
  Cells.sorted xs = Raise e → ∃ msg, e = TypeError msg.
Proof.
  induction xs as [|x xs IH]; [done|]. rewrite sorted_cons.
  destruct (Cells.sorted xs) as [ys|e'] eqn:Hxs; simpl.
  - apply insert_sorted_raise.
  - intros [= <-]. by apply IH.
Qed.

(** [unique] keeps a cell of every kind of the column. *)
Lemma unique_kind (xs : list cell) (a : cell) :
  a ∈ xs → ∃ a', a' ∈ Cells.unique xs ∧ Cells.is_text a' = Cells.is_text a.
Proof.
  induction xs as [|x xs IH]; [by intros ?%elem_of_nil|].
  intros [->|Ha]%elem_of_cons; simpl.
  - exists x. split; [by left | done].
  - destruct (IH Ha) as (a' & Ha' & Hkind).
    destruct (Cells.same a' x) eqn:Hsame.
    + exists x. split; [by left|]. rewrite <-Hkind. symmetry. by apply same_kind.
    + exists a'. split; [|done]. right.
      apply list_elem_of_In, List.filter_In. rewrite <-list_elem_of_In.
      by rewrite Hsame.
Qed.

Lemma mixed_spec (column : list cell) :
  Cells.mixed column = true
  ↔ ∃ a b, a ∈ column ∧ b ∈ column
           ∧ Cells.is_text a = true ∧ Cells.is_text b = false.
Proof.
  unfold Cells.mixed. rewrite andb_true_iff, !List.existsb_exists.
  setoid_rewrite <-list_elem_of_In. setoid_rewrite negb_true_iff. split.
  - intros [(a & Ha & Hta) (b & Hb & Htb)]. by exists a, b.
  - intros (a & b & Ha & Hb & Hta & Htb). split; [by exists a | by exists b].
Qed.

(** The sorted distinct values of a column with a text and a cell that is
    no text: [sorted] raises. *)
Lemma sorted_unique_mixed (column : list cell) :
  Cells.mixed column = true →
  ∃ msg, Cells.sorted (Cells.unique column) = Raise (TypeError msg).
Proof.
  intros (a & b & Ha & Hb & Hta & Htb)%mixed_spec.
  destruct (Cells.sorted (Cells.unique column)) as [ys|e] eqn:Hsorted.
  - destruct (sorted_ok _ _ Hsorted) as [_ Hkind].
    destruct (unique_kind column a Ha) as (a' & Ha' & Hka).
    destruct (unique_kind column b Hb) as (b' & Hb' & Hkb).
    specialize (Hkind a' b' Ha' Hb'). congruence.
  - destruct (sorted_raise _ _ Hsorted) as [msg ->]. by exists msg.
Qed.

End CellKinds.



(** X14: when, among the records of the selected state (all records for
    [All]), the district column holds a text and a cell that is no text,
    building the district options raises [TypeError]. *)
Theorem district_options_mixed_raises
    (df : list Cells.Region) (selected_state : cell) :
  Cells.mixed (Cells.District
               <$> Cells.apply_filter Cells.State selected_state df) = true →
  ∃ msg, Cells.district_options df selected_state = Raise (TypeError msg).
Proof.
  intros Hmixed. rewrite CellFacts.district_options_filter.
  destruct (CellKinds.sorted_unique_mixed _ Hmixed) as [msg ->].
  by exists msg.
Qed.

Lemma district_options_mixed_raises_witness :
  ∃ msg,
    Cells.district_options Demo.missing_district (Text "Tamil Nadu")
    = Raise (TypeError msg).
Proof.
  apply (district_options_mixed_raises Demo.missing_district (Text "Tamil Nadu")).
  reflexivity.
Defined.

Module CellMissing.

Lemma is_nan_nan (x : float) : PrimFloat.is_nan x = true → x = PrimFloat.nan.
Proof.
  unfold PrimFloat.is_nan. rewrite negb_true_iff, FloatAxioms.eqb_spec.
  intros Heq. apply Prim2SF_inj. change (Prim2SF nan) with S754_nan.
  destruct (Prim2SF x) as [b|b| |b m e]; try reflexivity; exfalso.
  - discriminate.
  - unfold SFeqb, SFcompare in Heq. destruct b; discriminate.
  - unfold SFeqb, SFcompare in Heq. rewrite Z.compare_refl in Heq.
    destruct b; rewrite ?Pos.compare_cont_refl in Heq; simpl in Heq;
      discriminate.
Qed.

Lemma isna_nan (c : cell) : Cells.isna c = true → c = Number PrimFloat.nan.
Proof. destruct c as [s|x]; [done|]. simpl. by intros ->%is_nan_nan. Qed.

(** The distinct values of a column of missing cells: one NaN. *)
Lemma unique_missing (xs : list cell) :
  xs ≠ [] → (∀ x, x ∈ xs → x = Number PrimFloat.nan) →
  Cells.unique xs = [Number PrimFloat.nan].
Proof.
  induction xs as [|x xs IH]; [done|]. intros _ Hall. simpl.
  rewrite (Hall x) by by left. f_equal.
  destruct xs as [|x' xs]; [done|].
  rewrite IH; [done | done |]. intros y Hy. apply Hall. by right.
Qed.

(** No cell equals a missing one. *)
Lemma filter_missing (col : Cells.Region → cell) (df : list Cells.Region) :
  (∀ r, r ∈ df → col r = Number PrimFloat.nan) →
  List.filter (λ r, Cells.eq (col r) (Number PrimFloat.nan)) df = [].
Proof.
  induction df as [|r df IH]; [done|]. intros Hall. simpl.
  rewrite (Hall r) by by left. simpl.
  apply IH. intros r' Hr'. apply Hall. by right.
Qed.

Lemma missing_districts_spec (df : list Cells.Region) :
  Cells.missing_districts df = true →
  ∀ r, r ∈ df → Cells.is_text (Cells.State r) = true
                 ∧ Cells.District r = Number PrimFloat.nan.
Proof.
  unfold Cells.missing_districts. rewrite List.forallb_forall.
  intros Hall r Hr%list_elem_of_In. apply Hall, andb_true_iff in Hr as [Hs Hd].
  split; [done | by apply isna_nan].
Qed.

End CellMissing.

(** X15: when every state cell is a text and every district cell of the
    file is empty, the district select box offers [All] and the missing
    value, whatever state is picked; and picking the missing value shows no
    row, although the frame has rows: no cell equals a missing value. *)
Theorem missing_district_column_shows_nothing
    (state_index : nat) (df : list Cells.Region) :
  Cells.missing_districts df = true →
  df ≠ [] →
  (∃ states,
     Cells.state_options df = Ok states
     ∧ Cells.district_options df (Cells.selected states state_index)
       = Ok [Cells.all_sentinel; Number PrimFloat.nan])
  ∧ Cells.shown_rows state_index 1 df = Ok [].
Proof.
  intros Hmissing Hdf.
  pose proof (CellMissing.missing_districts_spec df Hmissing) as Hcells.
  destruct (CellOptions.elem_of_cells_state_options df) as (states & Hstates & Hs).
  { intros r Hr. by apply Hcells. }
  set (selected_state := Cells.selected states state_index).
  assert (selected_state ∈ states) as Hstate.
  { apply CellOptions.cells_selected_elem_of. apply (Cells_options_nonempty states).
    apply Hs. by left. }
  apply Hs in Hstate.
  assert (Cells.apply_filter Cells.State selected_state df ≠ []) as Hrows.
  { assert (∃ r, r ∈ Cells.apply_filter Cells.State selected_state df)
      as [r Hr].
    { setoid_rewrite CellFacts.elem_of_apply_cells_filter.
      destruct Hstate as [Hstate|(r & Hr & Hstate)].
      - destruct df as [|r df]; [done|]. exists r. split; [by left | by left].
      - exists r. split; [done|]. right. rewrite Hstate.
        apply CellOptions.eq_refl_text. rewrite <-Hstate. by apply Hcells. }
    intros Hnil. rewrite Hnil in Hr. by apply elem_of_nil in Hr. }
  assert (Cells.district_options df selected_state
          = Ok [Cells.all_sentinel; Number PrimFloat.nan]) as Hdistricts.
  { rewrite CellFacts.district_options_filter, CellMissing.unique_missing.
    - done.
    - intros Hnil. by apply fmap_nil_inv in Hnil.
    - intros c (r & -> & [Hr _]%CellFacts.elem_of_apply_cells_filter)%list_elem_of_fmap.
      by apply Hcells. }
  split; [by exists states|].
  rewrite (Cells_shown_rows_eq state_index 1 df states _ Hstates Hdistricts).
  fold selected_state. f_equal.
  unfold Cells.apply_filter at 1.
  change (negb (Cells.eq (Cells.selected [Cells.all_sentinel; Number PrimFloat.nan] 1)
                  Cells.all_sentinel)) with true.
  cbv iota. rewrite CellFacts.getitem_cells_mask.
  apply CellMissing.filter_missing.
  intros r [Hr _]%CellFacts.elem_of_apply_cells_filter. by apply Hcells.
Qed.

(** The user picks the state Kerala and then the second district option. *)
Lemma missing_district_column_shows_nothing_witness :
  (∃ states,
     Cells.state_options Demo.no_districts = Ok states
     ∧ Cells.district_options Demo.no_districts (Cells.selected states 1)
       = Ok [Cells.all_sentinel; Number PrimFloat.nan])
  ∧ Cells.shown_rows 1 1 Demo.no_districts = Ok [].
Proof.
  apply (missing_district_column_shows_nothing 1 Demo.no_districts);
    [reflexivity | discriminate].
Defined.

(** ** The two layers agree on text columns *)

Lemma Cells_selected_text (options : list string) (index : nat) :
  Cells.selected (Text <$> options) index = Text (selected options index).
Proof.
  unfold Cells.selected, selected. rewrite list_lookup_fmap.
  destruct (options !! index); simpl; [done|]. by destruct options.
Qed.

(** The rows [main] shows are the rows shown on the region cells of its
    frame, for the picks of the user. *)
Lemma Cells_shown_rows_of_rows (env : Env) (rows : DataFrame) :
  Cells.shown_rows
    (chosen env "Select State" (state_options rows))
    (chosen env "Select District"
       (district_options rows (selected_state env rows)))
    (region_of_row <$> rows)
  = Ok (region_of_row <$> shown_rows env rows).
Proof.
  rewrite (Cells_shown_rows_eq _ _ _ (Text <$> state_options rows)
             (Text <$> district_options rows (selected_state env rows))).
  - rewrite !Cells_selected_text.
    fold (selected_state env rows). fold (selected_district env rows).
    rewrite (proj1 (Cells_apply_filter_of_rows _ rows)).
    by rewrite (proj2 (Cells_apply_filter_of_rows _ _)).
  - apply Cells_state_options_of_rows.
  - rewrite Cells_selected_text. apply Cells_district_options_of_rows.
Qed.
